(** * cfd_remesh_temp: nearest-neighbour resampling of a scalar field

    A shallow embedding of [cfd_remesh_temp.py].  The script is one straight
    line of calls into Python's built-ins, NumPy and SciPy.  Each call it
    makes is modelled by a function of the same name, in a module named after
    the library it belongs to, from that library's behaviour on the arguments
    the script passes; the script itself is [main], which reads like the
    source, statement for statement.

    Conventions of the model:
    - a text file is the list of its lines, and a line the list of its
      fields, split at the delimiter and stripped, as [genfromtxt] sees them
      (a blank line has no field);
    - a float is a decimal number or nan.  Its text is the shortest one that
      reads back as the same number, as NumPy (from 1.14 on) prints a
      float64 under [%s].  The decimal and the binary64 the script holds
      have the same text for a literal of at most 15 significant digits
      within the range of binary64 ([plain] below); statements about the
      text written are made for such fields;
    - distances are compared exactly, where the library rounds them to
      binary64 and fails when they overflow.  No statement below depends on
      which of the data points the library finds nearest, other than on the
      example, and those about a run that gets past the library call are
      made for coordinates far from overflow ([coordinate] below);
    - effects are threaded through a [world]: the input files, the names
      opened for reading, the files written and the console.  A [world]
      tells files apart by their names, and a write always succeeds in it:
      statements about the files written are about runs that end with
      status 0.  *)

From Stdlib Require Import List String Ascii Bool ZArith QArith Lia.
From Stdlib Require Import DecimalString.
Import ListNotations.

Local Open Scope list_scope.
Local Open Scope string_scope.

(** ** Data *)

(** A float64: [Fin m e] is the number [m * 10^e], kept with [m] free of
    trailing zeros (see [Py.float]); [NaN] is not-a-number. *)
Inductive float64 :=
| Fin (m e : Z)
| NaN.

(** A field of a line of text: [Literal m e] is text that Python reads as the
    number [m * 10^e] (so [10.0] is [Literal 100 (-1)] and [9] is
    [Literal 9 0]); [Text s] is any text that is no floating-point literal.
    The literals of the infinities, of nan and of a negative zero are left
    out. *)
Inductive field :=
| Literal (m e : Z)
| Text (s : string).

Definition line := list field.
Definition file := list line.

(** ** Python built-ins used by the script *)

Module Py.

(** The exceptions a run can end with.  The script catches none of them.
    [SystemExit] is what [exit()] raises: the interpreter then stops with
    status 0; any other one ends the run with a traceback and status 1. *)
Inductive exception :=
| IndexError
| ValueError
| IOError
| StopIteration
| SystemExit.

Inductive result (A : Type) :=
| Ok (a : A)
| Raise (e : exception).
Arguments Ok {A} a.
Arguments Raise {A} e.

(** [s.split(sep)] for a one-character separator: the pieces of [s] between
    the occurrences of [sep]; never an empty list. *)
Fixpoint split (sep : ascii) (s : string) : list string :=
  match s with
  | EmptyString => [EmptyString]
  | String c s' =>
      if Ascii.eqb c sep then EmptyString :: split sep s'
      else match split sep s' with
           | piece :: rest => String c piece :: rest
           | [] => [String c EmptyString]
           end
  end.

(** [sep.join(pieces)] *)
Fixpoint join (sep : string) (pieces : list string) : string :=
  match pieces with
  | [] => EmptyString
  | [p] => p
  | p :: rest => p ++ sep ++ join sep rest
  end.

(** [l[i]] on a list of strings.  The script reads index 0 of the result of
    [split], and indices 1 and 2 of [sys.argv] once it knows its length is at
    least 3: the default is never returned. *)
Definition item (l : list string) (i : nat) : string := nth i l EmptyString.

(** Trailing zeros of the mantissa moved into the exponent. *)
Fixpoint strip_zeros (fuel : nat) (m e : Z) : Z * Z :=
  match fuel with
  | O => (m, e)
  | S fuel' =>
      if (m mod 10 =? 0)%Z then strip_zeros fuel' (m / 10)%Z (e + 1)%Z
      else (m, e)
  end.

Definition normal (m e : Z) : float64 :=
  if (m =? 0)%Z then Fin 0 0
  else let (m', e') := strip_zeros (Z.to_nat (Z.log2 (Z.abs m))) m e in Fin m' e'.

(** [float(s)]: the number a literal denotes, [ValueError] on other text. *)
Definition float (s : field) : result float64 :=
  match s with
  | Literal m e => Ok (normal m e)
  | Text _ => Raise ValueError
  end.

Fixpoint zeros (k : nat) : string :=
  match k with
  | O => EmptyString
  | S k' => String "0" (zeros k')
  end.

Definition digits (n : N) : string := NilZero.string_of_uint (N.to_uint n).

(** [str(v)] of a float64, the text [%s] puts in the output: the digits of
    the number, with a decimal point in place when it falls within 16 digits
    to the left and 4 to the right of the first digit, and in scientific
    notation otherwise. *)
Definition str (v : float64) : string :=
  match v with
  | NaN => "nan"
  | Fin m e =>
      if (m =? 0)%Z then "0.0"
      else
        let sign := if (m <? 0)%Z then "-" else EmptyString in
        let ds := digits (Z.abs_N m) in
        let n := Z.of_nat (String.length ds) in
        let decpt := (n + e)%Z in
        sign ++
        (if ((decpt <=? -4) || (16 <? decpt))%Z then
           let x := (decpt - 1)%Z in
           let xs := digits (Z.abs_N x) in
           substring 0 1 ds
             ++ (if (1 <? n)%Z then "." ++ substring 1 (String.length ds - 1) ds
                 else EmptyString)
             ++ "e" ++ (if (x <? 0)%Z then "-" else "+")
             ++ (if (String.length xs <? 2)%nat then "0" ++ xs else xs)
         else if (decpt <=? 0)%Z then
           "0." ++ zeros (Z.to_nat (- decpt)) ++ ds
         else if (n <=? decpt)%Z then
           ds ++ zeros (Z.to_nat (decpt - n)) ++ ".0"
         else
           substring 0 (Z.to_nat decpt) ds ++ "."
             ++ substring (Z.to_nat decpt) (Z.to_nat (n - decpt)) ds)
  end.

End Py.

Export Py (exception(..), result(..)).

(** ** The world a run acts on *)

Record world := World {
  disk : string -> option file;            (* the files that can be read *)
  opened : list string;                    (* names opened for reading, oldest first *)
  written : list (string * list string);   (* files written, latest first, as lines *)
  stdout : list string                     (* lines printed, oldest first *)
}.

(** A statement of the script: it acts on the world and returns a value or
    raises. *)
Definition M (A : Type) : Type := world -> result A * world.

Definition ret {A} (a : A) : M A := fun w => (Ok a, w).

Definition raise {A} (e : exception) : M A := fun w => (Raise e, w).

Definition bind {A B} (c : M A) (k : A -> M B) : M B :=
  fun w =>
    match c w with
    | (Ok a, w') => k a w'
    | (Raise e, w') => (Raise e, w')
    end.

Definition lift {A} (r : result A) : M A := fun w => (r, w).

Notation "x <- c ;; k" := (bind c (fun x => k))
  (at level 61, c at next level, right associativity).
Notation "c ;;; k" := (bind c (fun _ => k))
  (at level 61, right associativity).

(** [print s].  The progress lines of the script that print
    [datetime.now()] depend on the clock and are not recorded. *)
Definition print (s : string) : M unit :=
  fun w => (Ok tt, World (disk w) (opened w) (written w) (stdout w ++ [s])).

(** [exit()] *)
Definition exit : M unit := raise SystemExit.

(** The status the interpreter ends with. *)
Definition status {A} (r : result A) : Z :=
  match r with
  | Ok _ => 0
  | Raise SystemExit => 0
  | Raise _ => 1
  end.

(** The latest content written under a name. *)
Fixpoint lookup (name : string) (files : list (string * list string)) : option (list string) :=
  match files with
  | [] => None
  | (n, content) :: rest => if String.eqb n name then Some content else lookup name rest
  end.

(** ** NumPy *)

Module Numpy.

(** An array of float64 of dimension 0, 1 or 2. *)
Inductive ndarray :=
| Array0 (v : float64)
| Array1 (l : list float64)
| Array2 (rows : list (list float64)).

(** The converter of a float column with [loose=True], the default: text
    that [float] rejects becomes the column's default, nan. *)
Definition loose_call (s : field) : float64 :=
  match Py.float s with
  | Ok v => v
  | Raise _ => NaN
  end.

Definition blank (l : line) : bool :=
  match l with
  | [] => true
  | _ :: _ => false
  end.

(** The lines [genfromtxt] keeps: those after the header that are not blank. *)
Definition data_rows (lines : file) (skip_header : nat) : list line :=
  filter (fun l => negb (blank l)) (skipn skip_header lines).

(** [np.squeeze(np.array(rows))]: the table as an array without its axes of
    length one.  No row gives the empty one-dimensional array. *)
Definition squeeze (rows : list (list float64)) : ndarray :=
  match rows with
  | [] => Array1 []
  | [r] =>
      match r with
      | [v] => Array0 v
      | _ => Array1 r
      end
  | _ :: _ :: _ =>
      if forallb (fun r => (List.length r =? 1)%nat) rows
      then Array1 (map (fun r => nth 0 r NaN) rows)
      else Array2 rows
  end.

(** What [genfromtxt] makes of the lines of a file, with [dtype=float],
    [invalid_raise=True] and [loose=True] (the defaults):
    - it steps over [skip_header] lines ([next] raises [StopIteration] when
      the file has fewer; releases after 1.16 give the empty array instead);
    - the first line that is not blank fixes the number of columns;
    - a later line with another number of fields raises [ValueError];
    - each field goes through the loose converter;
    - the result is squeezed. *)
Definition parse (lines : file) (skip_header : nat) : result ndarray :=
  if (List.length lines <? skip_header)%nat then Raise StopIteration
  else
    let rows := data_rows lines skip_header in
    let nbcols := List.length (hd [] rows) in
    if forallb (fun r => (List.length r =? nbcols)%nat) rows
    then Ok (squeeze (map (map loose_call) rows))
    else Raise ValueError.

(** [np.genfromtxt(fname, delimiter=",", skip_header=n)] *)
Definition genfromtxt (fname : string) (skip_header : nat) : M ndarray :=
  fun w =>
    match disk w fname with
    | None => (Raise IOError, w)
    | Some lines =>
        (parse lines skip_header,
         World (disk w) (opened w ++ [fname]) (written w) (stdout w))
    end.

(** [a[:,j]]: column [j] of a two-dimensional array.  [IndexError] when the
    array has fewer than two dimensions, or no column [j]. *)
Definition column (a : ndarray) (j : nat) : result (list float64) :=
  match a with
  | Array2 rows =>
      if (j <? List.length (hd [] rows))%nat
      then Ok (map (fun r => nth j r NaN) rows)
      else Raise IndexError
  | _ => Raise IndexError
  end.

(** [np.transpose(cols)] of a list of one-dimensional arrays of one length:
    row [i] holds element [i] of each. *)
Fixpoint transpose (cols : list (list float64)) : list (list float64) :=
  match cols with
  | [] => []
  | [c] => map (fun v => [v]) c
  | c :: rest => map (fun vr => fst vr :: snd vr) (combine c (transpose rest))
  end.

(** The lines [savetxt] writes for a two-dimensional [X] with [fmt="%s"] and
    [comments=""]: the header when there is one, then each row, its
    elements printed with [str] and joined by the delimiter. *)
Definition text (X : list (list float64)) (delimiter header : string) : list string :=
  (if (String.length header =? 0)%nat then [] else [header])
    ++ map (fun row => Py.join delimiter (map Py.str row)) X.

(** [np.savetxt(fname, X, delimiter=..., header=..., fmt="%s", comments="")] *)
Definition savetxt (fname : string) (X : list (list float64))
    (delimiter header : string) : M unit :=
  fun w =>
    (Ok tt,
     World (disk w) (opened w) ((fname, text X delimiter header) :: written w)
       (stdout w)).

End Numpy.

(** ** SciPy *)

Module Scipy.

(** The number a float stands for; none for nan. *)
Definition number (v : float64) : option Q :=
  match v with
  | Fin m e => Some (inject_Z m * (10 # 1) ^ e)%Q
  | NaN => None
  end.

(** The numbers of an array of coordinates; none when one of them is nan. *)
Fixpoint numbers (l : list float64) : option (list Q) :=
  match l with
  | [] => Some []
  | v :: l' =>
      match number v, numbers l' with
      | Some q, Some qs => Some (q :: qs)
      | _, _ => None
      end
  end.

Definition point : Type := (Q * Q)%type.

(** The square of the distance between two points of the plane. *)
Definition sqdist (p q : point) : Q :=
  ((fst p - fst q) * (fst p - fst q) + (snd p - snd q) * (snd p - snd q))%Q.

(** [a < b] on distances. *)
Definition closer (a b : Q) : bool := negb (Qle_bool b a).

(** The value at the data point nearest to [q] among [best] and [rest]:
    the first one at the least distance. *)
Fixpoint nearest (best : point * float64) (rest : list (point * float64))
    (q : point) : float64 :=
  match rest with
  | [] => snd best
  | s :: rest' =>
      if closer (sqdist (fst s) q) (sqdist (fst best) q)
      then nearest s rest' q
      else nearest best rest' q
  end.

(** [griddata((x, y), values, (xi, yi), method='nearest')]: for each point
    of [(xi, yi)], the value at the nearest data point.  [ValueError] when
    the arrays of a pair differ in length, and when a coordinate of a data
    point or of a query point is nan: the library searches among finite
    coordinates only.  [IndexError] on no data point (the script never gets
    there without one). *)
Definition griddata (points : list float64 * list float64) (values : list float64)
    (xi : list float64 * list float64) : result (list float64) :=
  let (x, y) := points in
  let (qx, qy) := xi in
  if negb ((List.length x =? List.length y)%nat && (List.length x =? List.length values)%nat
           && (List.length qx =? List.length qy)%nat)
  then Raise ValueError
  else
    match numbers x, numbers y, numbers qx, numbers qy with
    | Some x', Some y', Some qx', Some qy' =>
        match combine (combine x' y') values with
        | [] => Raise IndexError
        | s :: rest => Ok (map (nearest s rest) (combine qx' qy'))
        end
    | _, _, _, _ => Raise ValueError
    end.

End Scipy.

(** ** The script *)

Definition dot : ascii := "."%char.

Definition basename1 (filename1 : string) : list string := Py.split dot filename1.
Definition basename2 (filename2 : string) : list string := Py.split dot filename2.

Definition filename3 (filename1 filename2 : string) : string :=
  Py.item (basename1 filename1) 0 ++ "_" ++ Py.item (basename2 filename2) 0
    ++ "_output_with_coordinates.csv".

Definition filename4 (filename1 filename2 : string) : string :=
  Py.item (basename1 filename1) 0 ++ "_" ++ Py.item (basename2 filename2) 0
    ++ "_output_single_column.csv".

(** Lines 76-187, with [sys.argv] as argument. *)
Definition main (argv : list string) : M unit :=
  if (List.length argv <? 3)%nat then
    print "This script needs two arguments." ;;;
    print "Usage: cfd_remesh_temp filename1 filename2" ;;;
    print "Aborting ..." ;;;
    exit
  else
    let filename1 := Py.item argv 1 in
    let filename2 := Py.item argv 2 in
    print ("Filename1 =  " ++ filename1) ;;;
    print ("Filename2 =  " ++ filename2) ;;;
    print ("Output file1 = " ++ filename3 filename1 filename2) ;;;
    print ("Output file2 = " ++ filename4 filename1 filename2) ;;;
    print EmptyString ;;;
    data <- Numpy.genfromtxt filename1 1 ;;
    x <- lift (Numpy.column data 1) ;;
    y <- lift (Numpy.column data 2) ;;
    temp1 <- lift (Numpy.column data 0) ;;
    grid <- Numpy.genfromtxt filename2 0 ;;
    xi <- lift (Numpy.column grid 0) ;;
    yi <- lift (Numpy.column grid 1) ;;
    zi <- lift (Numpy.column grid 2) ;;
    temp2 <- lift (Scipy.griddata (x, y) temp1 (xi, yi)) ;;
    Numpy.savetxt (filename3 filename1 filename2)
      (Numpy.transpose [temp2; xi; yi; zi]) "," "T,x,y,z" ;;;
    Numpy.savetxt (filename4 filename1 filename2)
      (Numpy.transpose [temp2]) "," EmptyString ;;;
    exit.

(** ** The steps of the script as functions of the files read *)

Definition rbind {A B} (r : result A) (k : A -> result B) : result B :=
  match r with
  | Ok a => k a
  | Raise e => Raise e
  end.

(** Lines 100-112: [x], [y] and [temp1] from the lines of the first file. *)
Definition load_source (lines : file) : result (list float64 * list float64 * list float64) :=
  rbind (Numpy.parse lines 1) (fun data =>
  rbind (Numpy.column data 1) (fun x =>
  rbind (Numpy.column data 2) (fun y =>
  rbind (Numpy.column data 0) (fun temp1 =>
  Ok (x, y, temp1))))).

(** Lines 122-129: [xi], [yi] and [zi] from the lines of the second file. *)
Definition load_query (lines : file) : result (list float64 * list float64 * list float64) :=
  rbind (Numpy.parse lines 0) (fun grid =>
  rbind (Numpy.column grid 0) (fun xi =>
  rbind (Numpy.column grid 1) (fun yi =>
  rbind (Numpy.column grid 2) (fun zi =>
  Ok (xi, yi, zi))))).

(** Lines 150-179: the lines of the two output files. *)
Definition artifacts (source query : list float64 * list float64 * list float64)
    : result (list string * list string) :=
  let '(x, y, temp1) := source in
  let '(xi, yi, zi) := query in
  rbind (Scipy.griddata (x, y) temp1 (xi, yi)) (fun temp2 =>
  Ok (Numpy.text (Numpy.transpose [temp2; xi; yi; zi]) "," "T,x,y,z",
      Numpy.text (Numpy.transpose [temp2]) "," EmptyString)).

(** What a run with both arguments ends with, and the files written by the
    end, from what the two names hold on disk. *)
Definition outcome (filename1 filename2 : string) (first second : option file)
    (before : list (string * list string))
    : result unit * list (string * list string) :=
  match first with
  | None => (Raise IOError, before)
  | Some src =>
      match load_source src with
      | Raise e => (Raise e, before)
      | Ok s =>
          match second with
          | None => (Raise IOError, before)
          | Some qry =>
              match load_query qry with
              | Raise e => (Raise e, before)
              | Ok q =>
                  match artifacts s q with
                  | Raise e => (Raise e, before)
                  | Ok (with_coordinates, single_column) =>
                      (Raise SystemExit,
                       (filename4 filename1 filename2, single_column)
                         :: (filename3 filename1 filename2, with_coordinates)
                         :: before)
                  end
              end
          end
      end
  end.

(** ** Notions the statements below are written with *)

(** [has_dot s]: the character [.] occurs in [s]. *)
Fixpoint has_dot (s : string) : bool :=
  match s with
  | EmptyString => false
  | String c s' => Ascii.eqb c dot || has_dot s'
  end.

(** [before_first_dot name b]: [b] is the text of [name] before its first
    [.] (all of [name] when it has none). *)
Definition before_first_dot (name b : string) : Prop :=
  has_dot b = false /\ (name = b \/ exists rest, name = b ++ "." ++ rest).


(** Field [j] of a line; text that is no literal where the line is short. *)
Definition field_at (j : nat) (r : line) : field := nth j r (Text EmptyString).


(** A field whose text the run writes back as the model has it: text that is
    no literal (it is nan, written [nan]), or a literal of at most 15
    significant digits of magnitude between [1e-300] and [1e300], which
    binary64 holds and prints without a change of digits. *)
Definition plain (f : field) : bool :=
  match f with
  | Literal m e => ((Z.abs m <? 10 ^ 15) && (-300 <=? e) && (e <=? 285))%Z
  | Text _ => true
  end.

(** A field that can stand for a coordinate: a plain literal of magnitude
    below [1e150], so that no squared distance overflows binary64. *)
Definition coordinate (f : field) : bool :=
  match f with
  | Literal m e => ((Z.abs m <? 10 ^ 15) && (-300 <=? e) && (e <=? 135))%Z
  | Text _ => false
  end.

(** A data row of the first file whose value is plain and whose x and y are
    coordinates; its z is not read. *)
Definition source_row (r : line) : Prop :=
  plain (field_at 0 r) = true /\
  coordinate (field_at 1 r) = true /\ coordinate (field_at 2 r) = true.

(** A row of the second file whose x and y are coordinates and whose z is
    plain. *)
Definition query_row (r : line) : Prop :=
  coordinate (field_at 0 r) = true /\ coordinate (field_at 1 r) = true /\
  plain (field_at 2 r) = true.

(** The points of a file as the loader reads them: its data rows, each field
    converted. *)
Definition loaded (lines : file) (skip_header : nat) : list (list float64) :=
  map (map Numpy.loose_call) (Numpy.data_rows lines skip_header).

(** Column [j] of a table of floats. *)
Definition col (j : nat) (table : list (list float64)) : list float64 :=
  map (fun r => nth j r NaN) table.

(** [has c s]: the character [c] occurs in [s]. *)
Fixpoint has (c : ascii) (s : string) : bool :=
  match s with
  | EmptyString => false
  | String c' s' => Ascii.eqb c' c || has c s'
  end.

Definition comma : ascii := ","%char.


(** [same_but_z l l']: two lines that differ at most in the field of index 3,
    the z of a source point. *)
Definition same_but_z (l l' : line) : Prop :=
  List.length l = List.length l' /\
  forall j, j <> 3%nat -> nth_error l j = nth_error l' j.

(** ** Example files *)

Definition header : line := [Text "T"; Text "x"; Text "y"; Text "z"].

Definition integer (z : Z) : field := Literal z 0.

Fixpoint disk_of (files : list (string * file)) (name : string) : option file :=
  match files with
  | [] => None
  | (n, content) :: rest => if String.eqb n name then Some content else disk_of rest name
  end.

Definition fresh (files : list (string * file)) : world := World (disk_of files) [] [] [].

Definition two_sources : file :=
  [ header;
    [Literal 100 (-1); integer 0; integer 0; integer 0];
    [Literal 200 (-1); integer 10; integer 0; integer 0] ].

Definition two_queries : file :=
  [ [integer 1; integer 0; integer 0];
    [integer 9; integer 0; integer 0] ].

Definition one_source : file :=
  [ header; [Literal 100 (-1); integer 0; integer 0; integer 0] ].

Definition one_query : file := [ [integer 1; integer 0; integer 0] ].



Definition two_sources_raised : file :=
  [ header;
    [Literal 100 (-1); integer 0; integer 0; integer 5];
    [Literal 200 (-1); integer 10; integer 0; Literal 75 (-1)] ].

Definition flat_queries : file :=
  [ [integer 1; integer 0]; [integer 9; integer 0] ].

(** The example without the z of the source points and with a fourth field
    on the query points. *)
Definition flat_sources : file :=
  [ [Text "T"; Text "x"; Text "y"];
    [Literal 100 (-1); integer 0; integer 0];
    [Literal 200 (-1); integer 10; integer 0] ].

Definition tagged_queries : file :=
  [ [integer 1; integer 0; integer 0; Text "north"];
    [integer 9; integer 0; integer 0; Text "south"] ].

(** The example with a data row where the header is expected. *)
Definition headless_sources : file :=
  [ [Literal 55 (-1); integer 3; integer 3; integer 0];
    [Literal 100 (-1); integer 0; integer 0; integer 0];
    [Literal 200 (-1); integer 10; integer 0; integer 0] ].




Definition command : list string := ["cfd_remesh_temp.py"; "temp.csv"; "grid.csv"].

(** ** How a run unfolds *)

#[local] Arguments Scipy.griddata : simpl never.
#[local] Arguments Numpy.parse : simpl never.
#[local] Arguments Numpy.column : simpl never.
#[local] Arguments Numpy.transpose : simpl never.
#[local] Arguments Numpy.text : simpl never.
#[local] Arguments filename3 : simpl never.
#[local] Arguments filename4 : simpl never.

Section Run.

Variable argv : list string.
Variable w : world.
Hypothesis two_arguments : (3 <= List.length argv)%nat.

Let filename1 := Py.item argv 1.
Let filename2 := Py.item argv 2.

Lemma main_no_source :
  disk w filename1 = None ->
  fst (main argv w) = Raise IOError /\ written (snd (main argv w)) = written w.
Proof.
  intros Hd. unfold main.
  rewrite (proj2 (Nat.ltb_ge _ _) two_arguments).
  unfold bind, print, Numpy.genfromtxt; simpl.
  fold filename1. rewrite Hd. now split.
Qed.

Lemma main_source_raise src e :
  disk w filename1 = Some src ->
  load_source src = Raise e ->
  fst (main argv w) = Raise e /\ written (snd (main argv w)) = written w.
Proof.
  intros Hd Hl. unfold main.
  rewrite (proj2 (Nat.ltb_ge _ _) two_arguments).
  unfold bind, print, Numpy.genfromtxt, lift; simpl.
  fold filename1. rewrite Hd.
  unfold load_source, rbind in Hl.
  destruct (Numpy.parse src 1) as [data|e1]; [|now inversion Hl].
  destruct (Numpy.column data 1) as [x|e1]; [|now inversion Hl].
  destruct (Numpy.column data 2) as [y|e1]; [|now inversion Hl].
  destruct (Numpy.column data 0) as [t|e1]; [discriminate|now inversion Hl].
Qed.

Lemma main_no_query src s :
  disk w filename1 = Some src ->
  load_source src = Ok s ->
  disk w filename2 = None ->
  fst (main argv w) = Raise IOError /\ written (snd (main argv w)) = written w.
Proof.
  intros Hd Hl Hq. unfold main.
  rewrite (proj2 (Nat.ltb_ge _ _) two_arguments).
  unfold bind, print, Numpy.genfromtxt, lift; simpl.
  fold filename1 filename2. rewrite Hd.
  unfold load_source, rbind in Hl.
  destruct (Numpy.parse src 1) as [data|e1]; [|discriminate].
  destruct (Numpy.column data 1) as [x|e1]; [|discriminate].
  destruct (Numpy.column data 2) as [y|e1]; [|discriminate].
  destruct (Numpy.column data 0) as [t|e1]; [|discriminate].
  simpl. rewrite Hq. now split.
Qed.

Lemma main_query_raise src s qry e :
  disk w filename1 = Some src ->
  load_source src = Ok s ->
  disk w filename2 = Some qry ->
  load_query qry = Raise e ->
  fst (main argv w) = Raise e /\ written (snd (main argv w)) = written w.
Proof.
  intros Hd Hl Hq Hg. unfold main.
  rewrite (proj2 (Nat.ltb_ge _ _) two_arguments).
  unfold bind, print, Numpy.genfromtxt, lift; simpl.
  fold filename1 filename2. rewrite Hd.
  unfold load_source, rbind in Hl.
  destruct (Numpy.parse src 1) as [data|e1]; [|discriminate].
  destruct (Numpy.column data 1) as [x|e1]; [|discriminate].
  destruct (Numpy.column data 2) as [y|e1]; [|discriminate].
  destruct (Numpy.column data 0) as [t|e1]; [|discriminate].
  simpl. rewrite Hq.
  unfold load_query, rbind in Hg.
  destruct (Numpy.parse qry 0) as [grid|e1]; [|now inversion Hg].
  destruct (Numpy.column grid 0) as [xi|e1]; [|now inversion Hg].
  destruct (Numpy.column grid 1) as [yi|e1]; [|now inversion Hg].
  destruct (Numpy.column grid 2) as [zi|e1]; [discriminate|now inversion Hg].
Qed.

Lemma main_loaded src s qry q :
  disk w filename1 = Some src ->
  load_source src = Ok s ->
  disk w filename2 = Some qry ->
  load_query qry = Ok q ->
  match artifacts s q with
  | Ok (with_coordinates, single_column) =>
      fst (main argv w) = Raise SystemExit /\
      written (snd (main argv w)) =
        (filename4 filename1 filename2, single_column)
          :: (filename3 filename1 filename2, with_coordinates) :: written w
  | Raise e =>
      fst (main argv w) = Raise e /\ written (snd (main argv w)) = written w
  end.
Proof.
  intros Hd Hl Hq Hg. unfold main.
  rewrite (proj2 (Nat.ltb_ge _ _) two_arguments).
  unfold bind, print, Numpy.genfromtxt, lift; simpl.
  fold filename1 filename2. rewrite Hd.
  unfold load_source, rbind in Hl.
  destruct (Numpy.parse src 1) as [data|e1]; [|discriminate].
  destruct (Numpy.column data 1) as [x|e1]; [|discriminate].
  destruct (Numpy.column data 2) as [y|e1]; [|discriminate].
  destruct (Numpy.column data 0) as [t|e1]; [|discriminate].
  simpl. rewrite Hq.
  unfold load_query, rbind in Hg.
  destruct (Numpy.parse qry 0) as [grid|e1]; [|discriminate].
  destruct (Numpy.column grid 0) as [xi|e1]; [|discriminate].
  destruct (Numpy.column grid 1) as [yi|e1]; [|discriminate].
  destruct (Numpy.column grid 2) as [zi|e1]; [|discriminate].
  inversion Hl; inversion Hg; subst. unfold artifacts, rbind.
  destruct (Scipy.griddata (x, y) t (xi, yi)) as [temp2|e1]; simpl; now split.
Qed.

Lemma main_outcome :
  (fst (main argv w), written (snd (main argv w))) =
  outcome filename1 filename2 (disk w filename1) (disk w filename2) (written w).
Proof.
  unfold outcome.
  destruct (disk w filename1) as [src|] eqn:Hd.
  - destruct (load_source src) as [s|e] eqn:Hl.
    + destruct (disk w filename2) as [qry|] eqn:Hq.
      * destruct (load_query qry) as [q|e] eqn:Hg.
        -- pose proof (main_loaded src s qry q Hd Hl Hq Hg) as H.
           destruct (artifacts s q) as [[a1 a2]|e]; destruct H as [H1 H2];
             now rewrite H1, H2.
        -- destruct (main_query_raise src s qry e Hd Hl Hq Hg) as [H1 H2].
           now rewrite H1, H2.
      * destruct (main_no_query src s Hd Hl Hq) as [H1 H2]. now rewrite H1, H2.
    + destruct (main_source_raise src e Hd Hl) as [H1 H2]. now rewrite H1, H2.
  - destruct (main_no_source Hd) as [H1 H2]. now rewrite H1, H2.
Qed.

End Run.

(** ** Output file names *)

Section Filenames.

Lemma split_not_nil sep s : Py.split sep s <> [].
Proof.
  destruct s as [|c s]; simpl; [discriminate|].
  destruct (Ascii.eqb c sep); [discriminate|].
  destruct (Py.split sep s); discriminate.
Qed.

Lemma split_head_before_first_dot name :
  before_first_dot name (Py.item (Py.split dot name) 0).
Proof.
  unfold before_first_dot, Py.item.
  induction name as [|c name IH]; simpl.
  - split; [reflexivity | now left].
  - destruct (Ascii.eqb c dot) eqn:Hc; simpl.
    + apply Ascii.eqb_eq in Hc; subst c.
      split; [reflexivity|]. right. now exists name.
    + pose proof (split_not_nil dot name) as Hne.
      destruct (Py.split dot name) as [|piece rest]; [contradiction|].
      simpl in *. destruct IH as [Hd Hn]. rewrite Hc, Hd.
      split; [reflexivity|].
      destruct Hn as [-> | [r ->]]; [now left|].
      right. now exists r.
Qed.

End Filenames.

(** C8: the two output paths are the text of each input name before its
    first [.], joined with [_], followed by the fixed suffixes
    [_output_with_coordinates.csv] and [_output_single_column.csv]. *)
Theorem output_names_from_basenames (filename1 filename2 : string) :
  exists b1 b2,
    before_first_dot filename1 b1 /\
    before_first_dot filename2 b2 /\
    filename3 filename1 filename2 = b1 ++ "_" ++ b2 ++ "_output_with_coordinates.csv" /\
    filename4 filename1 filename2 = b1 ++ "_" ++ b2 ++ "_output_single_column.csv".
Proof.
  exists (Py.item (basename1 filename1) 0), (Py.item (basename2 filename2) 0).
  repeat split;
    try apply split_head_before_first_dot; reflexivity.
Qed.

(** ** Too few arguments *)

(** C9: with fewer than two positional arguments the script prints its usage
    message and exits with status 0; it opens no file for reading and writes
    none. *)
Theorem usage_then_exit (argv : list string) (w : world) :
  (List.length (tl argv) < 2)%nat ->
  fst (main argv w) = Raise SystemExit /\
  status (fst (main argv w)) = 0%Z /\
  stdout (snd (main argv w)) =
    (stdout w ++ ["This script needs two arguments.";
                  "Usage: cfd_remesh_temp filename1 filename2";
                  "Aborting ..."])%list /\
  opened (snd (main argv w)) = opened w /\
  written (snd (main argv w)) = written w.
Proof.
  intros Hn.
  assert (Hlt : (List.length argv <? 3)%nat = true).
  { apply Nat.ltb_lt. destruct argv; simpl in *; lia. }
  unfold main. rewrite Hlt. unfold bind, print, exit, raise. simpl.
  rewrite <- !app_assoc. simpl. repeat split.
Qed.

(** ** Tables of fewer than two rows *)

Section FewRows.

Lemma squeeze_few_rows (rows : list (list float64)) (j : nat) :
  (List.length rows < 2)%nat ->
  Numpy.column (Numpy.squeeze rows) j = Raise IndexError.
Proof.
  intros Hn.
  destruct rows as [|r [|r' rows]]; simpl in Hn; try lia.
  - reflexivity.
  - destruct r as [|v [|v' r]]; reflexivity.
Qed.

Lemma parse_few_rows (lines : file) (skip_header : nat) :
  (skip_header <= List.length lines)%nat ->
  (List.length (Numpy.data_rows lines skip_header) < 2)%nat ->
  exists a, Numpy.parse lines skip_header = Ok a /\
            forall j, Numpy.column a j = Raise IndexError.
Proof.
  intros Hk Hn. unfold Numpy.parse.
  rewrite (proj2 (Nat.ltb_ge _ _) Hk).
  set (rows := Numpy.data_rows lines skip_header) in *.
  assert (Hc : forallb (fun r => (List.length r =? List.length (hd [] rows))%nat) rows = true).
  { destruct rows as [|r [|r' rows']]; simpl in *; try lia; try reflexivity.
    now rewrite Nat.eqb_refl. }
  rewrite Hc. eexists; split; [reflexivity|].
  intros j. apply squeeze_few_rows. now rewrite length_map.
Qed.

Lemma load_source_few_rows (lines : file) :
  (List.length (Numpy.data_rows lines 1) < 2)%nat ->
  load_source lines = Raise (if (List.length lines <? 1)%nat then StopIteration else IndexError).
Proof.
  intros Hn. destruct (List.length lines <? 1)%nat eqn:Hl.
  - unfold load_source, Numpy.parse. now rewrite Hl.
  - apply Nat.ltb_ge in Hl.
    destruct (parse_few_rows lines 1 Hl Hn) as [a [Ha Hcol]].
    unfold load_source. rewrite Ha. simpl. now rewrite Hcol.
Qed.

Lemma load_query_few_rows (lines : file) :
  (List.length (Numpy.data_rows lines 0) < 2)%nat ->
  load_query lines = Raise IndexError.
Proof.
  intros Hn.
  destruct (parse_few_rows lines 0 (Nat.le_0_l _) Hn) as [a [Ha Hcol]].
  unfold load_query. rewrite Ha. simpl. now rewrite Hcol.
Qed.

Lemma load_source_no_exit (lines : file) : load_source lines <> Raise SystemExit.
Proof.
  unfold load_source, Numpy.parse, Numpy.column, rbind.
  repeat match goal with
  | |- context [if ?b then _ else _] => destruct b
  | |- context [match ?a with Numpy.Array0 _ => _ | _ => _ end] => destruct a
  end; discriminate.
Qed.

Lemma load_query_no_exit (lines : file) : load_query lines <> Raise SystemExit.
Proof.
  unfold load_query, Numpy.parse, Numpy.column, rbind.
  repeat match goal with
  | |- context [if ?b then _ else _] => destruct b
  | |- context [match ?a with Numpy.Array0 _ => _ | _ => _ end] => destruct a
  end; discriminate.
Qed.

(** Whatever the first file holds, a second file of fewer than two rows ends
    the run with an exception before anything is written. *)
Lemma main_few_query_rows (argv : list string) (w : world) (qry : file) :
  (3 <= List.length argv)%nat ->
  disk w (Py.item argv 2) = Some qry ->
  (List.length (Numpy.data_rows qry 0) < 2)%nat ->
  exists e, fst (main argv w) = Raise e /\ e <> SystemExit /\
            written (snd (main argv w)) = written w.
Proof.
  intros Hargv Hq Hn.
  destruct (disk w (Py.item argv 1)) as [src|] eqn:Hd.
  - destruct (load_source src) as [s|e] eqn:Hl.
    + exists IndexError.
      destruct (main_query_raise argv w Hargv src s qry IndexError Hd Hl Hq
                  (load_query_few_rows qry Hn)) as [H1 H2].
      repeat split; [assumption|discriminate|assumption].
    + exists e.
      destruct (main_source_raise argv w Hargv src e Hd Hl) as [H1 H2].
      repeat split; [assumption| |assumption].
      intros ->. now apply (load_source_no_exit src).
  - exists IOError.
    destruct (main_no_source argv w Hargv Hd) as [H1 H2].
    repeat split; [assumption|discriminate|assumption].
Qed.

End FewRows.

(** ** Runs that stop on a table of fewer than two rows *)

(** C7: when the first file yields no data row, the run ends with an
    exception (the [IndexError] of [data[:,1]], or [StopIteration] when the
    file has not even the header line) and status 1, before anything is
    resampled or written. *)
Theorem empty_source_fails (argv : list string) (w : world) (src : file) :
  (3 <= List.length argv)%nat ->
  disk w (Py.item argv 1) = Some src ->
  Numpy.data_rows src 1 = [] ->
  exists e, fst (main argv w) = Raise e /\
            (e = IndexError \/ e = StopIteration) /\
            status (fst (main argv w)) = 1%Z /\
            written (snd (main argv w)) = written w.
Proof.
  intros Hargv Hd Hrows.
  assert (Hn : (List.length (Numpy.data_rows src 1) < 2)%nat) by (rewrite Hrows; simpl; lia).
  pose proof (load_source_few_rows src Hn) as Hl.
  destruct (main_source_raise argv w Hargv src _ Hd Hl) as [H1 H2].
  eexists; split; [exact H1|]. rewrite H1.
  destruct (List.length src <? 1)%nat; repeat split; auto.
Qed.

Lemma empty_source_fails_witness :
  exists e, fst (main command (fresh [("temp.csv", [header]); ("grid.csv", two_queries)])) = Raise e /\
            (e = IndexError \/ e = StopIteration) /\
            status (fst (main command (fresh [("temp.csv", [header]); ("grid.csv", two_queries)]))) = 1%Z /\
            written (snd (main command (fresh [("temp.csv", [header]); ("grid.csv", two_queries)]))) = [].
Proof.
  apply (empty_source_fails command
           (fresh [("temp.csv", [header]); ("grid.csv", two_queries)]) [header]).
  - simpl; lia.
  - reflexivity.
  - reflexivity.
Defined.

(** C7, against the claim: the error that ends the run on a first file
    without data rows is no error of its own.  It is the [IndexError] of
    [data[:,1]], the same that ends the run on a first file of one data
    row. *)
Lemma empty_source_error_not_dedicated :
  fst (main command (fresh [("temp.csv", [header]); ("grid.csv", two_queries)]))
    = Raise IndexError /\
  fst (main command (fresh [("temp.csv", one_source); ("grid.csv", two_queries)]))
    = Raise IndexError.
Proof.
  split; vm_compute; reflexivity.
Qed.

(** C3, on the code: a first file with exactly one data row does not give
    every query the value of that row.  [genfromtxt] returns the row as a
    one-dimensional array, [data[:,1]] raises [IndexError], and the run ends
    with status 1 and no output. *)
Theorem single_source_row_raises (argv : list string) (w : world) (src : file) (row : line) :
  (3 <= List.length argv)%nat ->
  disk w (Py.item argv 1) = Some src ->
  Numpy.data_rows src 1 = [row] ->
  fst (main argv w) = Raise IndexError /\
  status (fst (main argv w)) = 1%Z /\
  written (snd (main argv w)) = written w.
Proof.
  intros Hargv Hd Hrows.
  assert (Hn : (List.length (Numpy.data_rows src 1) < 2)%nat) by (rewrite Hrows; simpl; lia).
  pose proof (load_source_few_rows src Hn) as Hl.
  assert (Hlen : (List.length src <? 1)%nat = false).
  { destruct src as [|l src]; [discriminate Hrows|reflexivity]. }
  rewrite Hlen in Hl.
  destruct (main_source_raise argv w Hargv src _ Hd Hl) as [H1 H2].
  rewrite H1. repeat split; assumption.
Qed.

Lemma single_source_row_raises_witness :
  fst (main command (fresh [("temp.csv", one_source); ("grid.csv", two_queries)])) = Raise IndexError /\
  status (fst (main command (fresh [("temp.csv", one_source); ("grid.csv", two_queries)]))) = 1%Z /\
  written (snd (main command (fresh [("temp.csv", one_source); ("grid.csv", two_queries)]))) = [].
Proof.
  apply (single_source_row_raises command
           (fresh [("temp.csv", one_source); ("grid.csv", two_queries)]) one_source
           [Literal 100 (-1); integer 0; integer 0; integer 0]).
  - simpl; lia.
  - reflexivity.
  - reflexivity.
Defined.

(** C6, on the code: a second file without any row does not give two files
    of no data row.  [genfromtxt] returns an empty one-dimensional array,
    [grid[:,0]] raises [IndexError] (when the first file has not already
    stopped the run), and nothing is written. *)
Theorem empty_query_raises (argv : list string) (w : world) (qry : file) :
  (3 <= List.length argv)%nat ->
  disk w (Py.item argv 2) = Some qry ->
  Numpy.data_rows qry 0 = [] ->
  exists e, fst (main argv w) = Raise e /\ e <> SystemExit /\
            status (fst (main argv w)) = 1%Z /\
            written (snd (main argv w)) = written w.
Proof.
  intros Hargv Hq Hrows.
  assert (Hn : (List.length (Numpy.data_rows qry 0) < 2)%nat) by (rewrite Hrows; simpl; lia).
  destruct (main_few_query_rows argv w qry Hargv Hq Hn) as [e [H1 [H2 H3]]].
  exists e. rewrite H1. repeat split; try assumption.
  destruct e; try reflexivity. now elim H2.
Qed.

Lemma empty_query_raises_witness :
  exists e, fst (main command (fresh [("temp.csv", two_sources); ("grid.csv", [])])) = Raise e /\
            e <> SystemExit /\
            status (fst (main command (fresh [("temp.csv", two_sources); ("grid.csv", [])]))) = 1%Z /\
            written (snd (main command (fresh [("temp.csv", two_sources); ("grid.csv", [])]))) = [].
Proof.
  apply (empty_query_raises command
           (fresh [("temp.csv", two_sources); ("grid.csv", [])]) []).
  - simpl; lia.
  - reflexivity.
  - reflexivity.
Defined.

(** C2, on the code: a second file of exactly one row does not give two
    files of one data row.  [genfromtxt] returns the row as a
    one-dimensional array, [grid[:,0]] raises [IndexError] (when the first
    file has not already stopped the run), and nothing is written. *)
Theorem single_query_row_raises (argv : list string) (w : world) (qry : file) (row : line) :
  (3 <= List.length argv)%nat ->
  disk w (Py.item argv 2) = Some qry ->
  Numpy.data_rows qry 0 = [row] ->
  exists e, fst (main argv w) = Raise e /\ e <> SystemExit /\
            status (fst (main argv w)) = 1%Z /\
            written (snd (main argv w)) = written w.
Proof.
  intros Hargv Hq Hrows.
  assert (Hn : (List.length (Numpy.data_rows qry 0) < 2)%nat) by (rewrite Hrows; simpl; lia).
  destruct (main_few_query_rows argv w qry Hargv Hq Hn) as [e [H1 [H2 H3]]].
  exists e. rewrite H1. repeat split; try assumption.
  destruct e; try reflexivity. now elim H2.
Qed.

Lemma single_query_row_raises_witness :
  exists e, fst (main command (fresh [("temp.csv", two_sources); ("grid.csv", one_query)])) = Raise e /\
            e <> SystemExit /\
            status (fst (main command (fresh [("temp.csv", two_sources); ("grid.csv", one_query)]))) = 1%Z /\
            written (snd (main command (fresh [("temp.csv", two_sources); ("grid.csv", one_query)]))) = [].
Proof.
  apply (single_query_row_raises command
           (fresh [("temp.csv", two_sources); ("grid.csv", one_query)]) one_query
           [integer 1; integer 0; integer 0]).
  - simpl; lia.
  - reflexivity.
  - reflexivity.
Defined.

Lemma usage_then_exit_witness :
  fst (main ["cfd_remesh_temp.py"; "temp.csv"] (fresh [])) = Raise SystemExit /\
  status (fst (main ["cfd_remesh_temp.py"; "temp.csv"] (fresh []))) = 0%Z /\
  stdout (snd (main ["cfd_remesh_temp.py"; "temp.csv"] (fresh []))) =
    ["This script needs two arguments.";
     "Usage: cfd_remesh_temp filename1 filename2";
     "Aborting ..."] /\
  opened (snd (main ["cfd_remesh_temp.py"; "temp.csv"] (fresh []))) = [] /\
  written (snd (main ["cfd_remesh_temp.py"; "temp.csv"] (fresh []))) = [].
Proof.
  apply (usage_then_exit ["cfd_remesh_temp.py"; "temp.csv"] (fresh [])).
  simpl; lia.
Defined.

(** ** Rows the loader rejects, and rows it does not *)

Section Ragged.

Lemma skipn_not_nil {A} (k : nat) (l : list A) :
  skipn k l <> [] -> (k <= List.length l)%nat.
Proof.
  revert l; induction k as [|k IH]; intros l H; [lia|].
  destruct l as [|a l]; [now elim H|].
  simpl in *. apply IH in H. lia.
Qed.









End Ragged.




(** ** The worked example *)

(** C4, as the code has it: on the two source rows and two query rows of the
    example the run ends with status 0; the file with coordinates holds the
    header, then [10.0,1.0,0.0,0.0], then [20.0,9.0,0.0,0.0] (every number
    goes through [%s], which prints a float with its decimal point), and the
    single-column file holds [10.0], then [20.0]. *)
Theorem example_run :
  status (fst (main command (fresh [("temp.csv", two_sources); ("grid.csv", two_queries)]))) = 0%Z /\
  written (snd (main command (fresh [("temp.csv", two_sources); ("grid.csv", two_queries)]))) =
    [("temp_grid_output_single_column.csv", ["10.0"; "20.0"]);
     ("temp_grid_output_with_coordinates.csv",
      ["T,x,y,z"; "10.0,1.0,0.0,0.0"; "20.0,9.0,0.0,0.0"])].
Proof.
  split; vm_compute; reflexivity.
Qed.

(** C4, against the claim: the data rows of the file with coordinates are
    not [10.0,1,0,0] and [20.0,9,0,0]. *)
Lemma example_rows_differ :
  lookup "temp_grid_output_with_coordinates.csv"
    (written (snd (main command (fresh [("temp.csv", two_sources); ("grid.csv", two_queries)]))))
  <> Some ["T,x,y,z"; "10.0,1,0,0"; "20.0,9,0,0"].
Proof.
  vm_compute. discriminate.
Qed.

(** ** The z of the source points *)

Section SourceZ.

(** Two tables of floats that agree outside column 3. *)
Let agree (r r' : list float64) : Prop :=
  List.length r = List.length r' /\
  forall j, j <> 3%nat -> nth j r NaN = nth j r' NaN.

Lemma same_but_z_agree (l l' : line) :
  same_but_z l l' -> agree (map Numpy.loose_call l) (map Numpy.loose_call l').
Proof.
  intros [Hlen Hnth]. split.
  - now rewrite !length_map.
  - intros j Hj. specialize (Hnth j Hj).
    change NaN with (Numpy.loose_call (Text EmptyString)).
    rewrite !map_nth. f_equal.
    destruct (Nat.lt_ge_cases j (List.length l)) as [Hlt|Hge].
    + rewrite (nth_error_nth' l (Text EmptyString) Hlt) in Hnth.
      rewrite Hlen in Hlt.
      rewrite (nth_error_nth' l' (Text EmptyString) Hlt) in Hnth.
      now inversion Hnth.
    + rewrite (nth_overflow l _ Hge). rewrite Hlen in Hge.
      now rewrite (nth_overflow l' _ Hge).
Qed.

Lemma data_rows_same_but_z (src src' : file) (k : nat) :
  Forall2 same_but_z src src' ->
  Forall2 same_but_z (Numpy.data_rows src k) (Numpy.data_rows src' k).
Proof.
  intros H. unfold Numpy.data_rows.
  assert (Hs : Forall2 same_but_z (skipn k src) (skipn k src')).
  { revert k. induction H as [|l l' src src' Hl H IH]; intros k.
    - rewrite !skipn_nil. constructor.
    - destruct k as [|k]; simpl; [now constructor | apply IH]. }
  induction Hs as [|l l' t t' Hl Hs IH]; simpl; [constructor|].
  assert (Hb : Numpy.blank l = Numpy.blank l').
  { destruct Hl as [Hlen _]. destruct l, l'; simpl in *; congruence. }
  rewrite Hb. destruct (Numpy.blank l'); simpl; [assumption | now constructor].
Qed.

Lemma agree_column (T T' : list (list float64)) (j : nat) :
  Forall2 agree T T' -> j <> 3%nat ->
  Numpy.column (Numpy.squeeze T) j = Numpy.column (Numpy.squeeze T') j.
Proof.
  intros H Hj.
  assert (Hlen : List.length T = List.length T') by (eapply Forall2_length; eassumption).
  destruct (Nat.lt_ge_cases (List.length T) 2) as [Hlt|Hge].
  - rewrite !squeeze_few_rows; [reflexivity| lia | lia].
  - assert (Hone : forallb (fun r => (List.length r =? 1)%nat) T
                   = forallb (fun r => (List.length r =? 1)%nat) T').
    { clear Hlen Hge. induction H as [|r r' t t' [Hr _] H IH]; simpl; [reflexivity|].
      now rewrite Hr, IH. }
    assert (Hcol : map (fun r => nth j r NaN) T = map (fun r => nth j r NaN) T').
    { clear Hlen Hge Hone. induction H as [|r r' t t' [_ Hr] H IH]; simpl; [reflexivity|].
      now rewrite (Hr j Hj), IH. }
    assert (Hhd : List.length (hd [] T) = List.length (hd [] T')).
    { destruct H as [|r r' t t' [Hr _] H]; [reflexivity | exact Hr]. }
    destruct T as [|r1 [|r2 T]]; simpl in Hge; try lia.
    destruct T' as [|r1' [|r2' T']]; simpl in Hlen; try lia.
    unfold Numpy.squeeze. rewrite <- Hone.
    destruct (forallb _ (r1 :: r2 :: T)); [reflexivity|].
    unfold Numpy.column. rewrite <- Hhd, Hcol. reflexivity.
Qed.

Lemma parse_same_but_z (src src' : file) (k : nat) :
  Forall2 same_but_z src src' ->
  match Numpy.parse src k, Numpy.parse src' k with
  | Ok a, Ok a' => forall j, j <> 3%nat -> Numpy.column a j = Numpy.column a' j
  | Raise e, Raise e' => e = e'
  | _, _ => False
  end.
Proof.
  intros H. unfold Numpy.parse.
  rewrite <- (Forall2_length H).
  destruct (List.length src <? k)%nat; [reflexivity|]. cbv zeta.
  pose proof (data_rows_same_but_z src src' k H) as Hrows.
  set (rows := Numpy.data_rows src k) in *.
  set (rows' := Numpy.data_rows src' k) in *.
  assert (Hhd : List.length (hd [] rows) = List.length (hd [] rows')).
  { destruct Hrows as [|r r' t t' [Hr _] Hrows]; [reflexivity | exact Hr]. }
  assert (Hall : forallb (fun r => (List.length r =? List.length (hd [] rows))%nat) rows
                 = forallb (fun r => (List.length r =? List.length (hd [] rows'))%nat) rows').
  { rewrite <- Hhd. generalize (List.length (hd [] rows)). intros n.
    clear Hhd. induction Hrows as [|r r' t t' [Hr _] Hrows IH]; simpl; [reflexivity|].
    now rewrite Hr, IH. }
  rewrite <- Hall.
  match goal with |- context [forallb ?f rows] => destruct (forallb f rows) end;
    [|reflexivity].
  intros j Hj. apply agree_column; [|assumption].
  clear Hhd Hall. induction Hrows as [|r r' t t' Hr Hrows IH]; simpl; constructor.
  - now apply same_but_z_agree.
  - assumption.
Qed.

Lemma load_source_same_but_z (src src' : file) :
  Forall2 same_but_z src src' -> load_source src' = load_source src.
Proof.
  intros H. pose proof (parse_same_but_z src src' 1 H) as Hp.
  unfold load_source.
  destruct (Numpy.parse src 1) as [a|e], (Numpy.parse src' 1) as [a'|e'];
    try contradiction; simpl; [|now subst].
  rewrite <- (Hp 1%nat), <- (Hp 2%nat), <- (Hp 0%nat) by lia. reflexivity.
Qed.

Lemma load_query_same_but_z (src src' : file) :
  Forall2 same_but_z src src' -> load_query src' = load_query src.
Proof.
  intros H. pose proof (parse_same_but_z src src' 0 H) as Hp.
  unfold load_query.
  destruct (Numpy.parse src 0) as [a|e], (Numpy.parse src' 0) as [a'|e'];
    try contradiction; simpl; [|now subst].
  rewrite <- (Hp 0%nat), <- (Hp 1%nat), <- (Hp 2%nat) by lia. reflexivity.
Qed.

End SourceZ.

(** C10: two runs whose first files differ only in the z of their rows (the
    field of index 3), on the same second file, end the same way and leave
    the same output files. *)
Theorem source_z_unused (argv : list string) (w w' : world) (src src' : file) :
  disk w (Py.item argv 1) = Some src ->
  disk w' (Py.item argv 1) = Some src' ->
  Forall2 same_but_z src src' ->
  (forall name, name <> Py.item argv 1 -> disk w' name = disk w name) ->
  written w' = written w ->
  fst (main argv w') = fst (main argv w) /\
  written (snd (main argv w')) = written (snd (main argv w)).
Proof.
  intros Hd Hd' Hz Hother Hw.
  destruct (Nat.lt_ge_cases (List.length argv) 3) as [Hlt|Hge].
  - apply Nat.ltb_lt in Hlt. unfold main. rewrite Hlt.
    unfold bind, print, exit, raise. simpl. now split.
  - assert (H : (fst (main argv w'), written (snd (main argv w')))
                = (fst (main argv w), written (snd (main argv w)))).
    { rewrite (main_outcome argv w Hge), (main_outcome argv w' Hge).
      rewrite Hd, Hd', Hw. unfold outcome.
      rewrite (load_source_same_but_z src src' Hz).
      destruct (load_source src) as [s|e]; [|reflexivity].
      destruct (string_dec (Py.item argv 2) (Py.item argv 1)) as [Heq|Hne].
      - rewrite Heq, Hd, Hd'. now rewrite (load_query_same_but_z src src' Hz).
      - now rewrite (Hother _ Hne). }
    now inversion H.
Qed.

Lemma source_z_unused_witness :
  fst (main command (fresh [("temp.csv", two_sources_raised); ("grid.csv", two_queries)]))
  = fst (main command (fresh [("temp.csv", two_sources); ("grid.csv", two_queries)])) /\
  written (snd (main command (fresh [("temp.csv", two_sources_raised); ("grid.csv", two_queries)])))
  = written (snd (main command (fresh [("temp.csv", two_sources); ("grid.csv", two_queries)]))).
Proof.
  apply (source_z_unused command
           (fresh [("temp.csv", two_sources); ("grid.csv", two_queries)])
           (fresh [("temp.csv", two_sources_raised); ("grid.csv", two_queries)])
           two_sources two_sources_raised).
  - reflexivity.
  - reflexivity.
  - repeat constructor;
      intros [|[|[|[|j]]]] Hj; try reflexivity; now elim Hj.
  - intros name Hname. unfold fresh. cbn [disk disk_of].
    destruct (String.eqb "temp.csv" name) eqn:Heq; [|reflexivity].
    apply String.eqb_eq in Heq. subst name. now elim Hname.
  - reflexivity.
Defined.

(** ** Tables of two rows or more *)

Section Tables.

Lemma parse_table (lines : file) (skip_header c : nat) :
  (2 <= c)%nat ->
  (2 <= List.length (Numpy.data_rows lines skip_header))%nat ->
  Forall (fun r => List.length r = c) (Numpy.data_rows lines skip_header) ->
  Numpy.parse lines skip_header = Ok (Numpy.Array2 (loaded lines skip_header)).
Proof.
  intros Hc Hn Hall. unfold Numpy.parse, loaded.
  assert (Hk : (skip_header <= List.length lines)%nat).
  { apply skipn_not_nil. unfold Numpy.data_rows in Hn.
    intros Hnil. rewrite Hnil in Hn. simpl in Hn. lia. }
  rewrite (proj2 (Nat.ltb_ge _ _) Hk). cbv zeta.
  set (rows := Numpy.data_rows lines skip_header) in *.
  destruct rows as [|r1 [|r2 rows]]; simpl in Hn; try lia.
  assert (H1 : List.length r1 = c) by (now inversion Hall).
  assert (Hcheck : forallb (fun r => (List.length r =? List.length (hd [] (r1 :: r2 :: rows)))%nat)
                     (r1 :: r2 :: rows) = true).
  { apply forallb_forall. intros r Hr. apply Nat.eqb_eq. simpl hd.
    rewrite Forall_forall in Hall. rewrite H1. now apply Hall. }
  rewrite Hcheck. f_equal.
  unfold Numpy.squeeze. cbn [map forallb].
  rewrite length_map, H1.
  destruct (c =? 1)%nat eqn:Hc1; [apply Nat.eqb_eq in Hc1; lia | reflexivity].
Qed.

Lemma column_table (lines : file) (skip_header c j : nat) :
  (2 <= List.length (Numpy.data_rows lines skip_header))%nat ->
  Forall (fun r => List.length r = c) (Numpy.data_rows lines skip_header) ->
  (j < c)%nat ->
  Numpy.column (Numpy.Array2 (loaded lines skip_header)) j
  = Ok (col j (loaded lines skip_header)).
Proof.
  intros Hn Hall Hj. unfold Numpy.column, loaded, col.
  destruct (Numpy.data_rows lines skip_header) as [|r1 rows]; simpl in Hn; [lia|].
  cbn [map hd]. rewrite length_map.
  assert (H1 : List.length r1 = c) by (now inversion Hall).
  rewrite H1. now rewrite (proj2 (Nat.ltb_lt _ _) Hj).
Qed.

Lemma loose_coordinate (f : field) :
  coordinate f = true -> Numpy.loose_call f <> NaN.
Proof.
  destruct f as [m e|s]; [|discriminate]. intros _.
  unfold Numpy.loose_call, Py.float, Py.normal.
  destruct (m =? 0)%Z; [discriminate|].
  destruct (Py.strip_zeros _ m e). discriminate.
Qed.

Lemma col_loaded_coordinates (lines : file) (k j : nat) :
  Forall (fun r => coordinate (field_at j r) = true) (Numpy.data_rows lines k) ->
  Forall (fun v => v <> NaN) (col j (loaded lines k)).
Proof.
  intros H. unfold col, loaded. rewrite map_map. apply Forall_map.
  eapply Forall_impl; [|exact H]. intros r Hr. simpl.
  change NaN with (Numpy.loose_call (Text EmptyString)) at 1. rewrite map_nth.
  now apply loose_coordinate.
Qed.

Lemma numbers_some (l : list float64) :
  Forall (fun v => v <> NaN) l ->
  exists qs, Scipy.numbers l = Some qs /\ List.length qs = List.length l.
Proof.
  induction 1 as [|v l Hv Hl [qs [IH Hlen]]].
  - now exists [].
  - destruct v as [m e|]; [|now elim Hv].
    simpl. rewrite IH. eexists; split; [reflexivity|]. simpl. now rewrite Hlen.
Qed.

Lemma nearest_in (q : Scipy.point) (rest : list (Scipy.point * float64)) :
  forall best, In (Scipy.nearest best rest q) (map snd (best :: rest)).
Proof.
  induction rest as [|s rest IH]; intros best; simpl.
  - now left.
  - destruct (Scipy.closer _ _).
    + right. apply IH.
    + destruct (IH best) as [H|H]; [now left | right; now right].
Qed.

(** On coordinates that are numbers [griddata] returns one value for each
    query point, each of them one of the values given. *)
Lemma griddata_returns (x y temp1 xi yi : list float64) :
  (1 <= List.length x)%nat ->
  List.length x = List.length y ->
  List.length x = List.length temp1 ->
  List.length xi = List.length yi ->
  Forall (fun v => v <> NaN) x -> Forall (fun v => v <> NaN) y ->
  Forall (fun v => v <> NaN) xi -> Forall (fun v => v <> NaN) yi ->
  exists temp2, Scipy.griddata (x, y) temp1 (xi, yi) = Ok temp2 /\
                List.length temp2 = List.length xi /\
                Forall (fun v => In v temp1) temp2.
Proof.
  intros Hne Hxy Hxt Hq Fx Fy Fxi Fyi. unfold Scipy.griddata.
  rewrite <- Hxy, <- Hxt, <- Hq, !Nat.eqb_refl. simpl negb. cbv iota.
  destruct (numbers_some x Fx) as [x' [-> Lx]].
  destruct (numbers_some y Fy) as [y' [-> Ly]].
  destruct (numbers_some xi Fxi) as [xi' [-> Lxi]].
  destruct (numbers_some yi Fyi) as [yi' [-> Lyi]].
  destruct (combine (combine x' y') temp1) as [|s rest] eqn:Hpts.
  { apply (f_equal (@List.length _)) in Hpts.
    rewrite !length_combine in Hpts. simpl in Hpts. lia. }
  eexists; split; [reflexivity|]. split.
  - rewrite length_map. unfold Scipy.point. rewrite length_combine. lia.
  - apply Forall_forall. intros v Hv. apply in_map_iff in Hv.
    destruct Hv as [q [<- _]].
    pose proof (nearest_in q rest s) as Hin.
    apply in_map_iff in Hin. destruct Hin as [[p v] [Hsnd Hin]].
    simpl in Hsnd. rewrite <- Hsnd. unfold Scipy.point in *. rewrite <- Hpts in Hin.
    now apply in_combine_r in Hin.
Qed.

Lemma transpose_cons (c c' : list float64) (rest : list (list float64)) :
  Numpy.transpose (c :: c' :: rest)
  = map (fun vr => fst vr :: snd vr) (combine c (Numpy.transpose (c' :: rest))).
Proof. reflexivity. Qed.

Lemma transpose_one (c : list float64) :
  Numpy.transpose [c] = map (fun v => [v]) c.
Proof. reflexivity. Qed.

Lemma text_single_column (temp2 : list float64) :
  Numpy.text (Numpy.transpose [temp2]) "," EmptyString = map Py.str temp2.
Proof.
  unfold Numpy.text. rewrite transpose_one. cbn [String.length Nat.eqb app].
  rewrite map_map. reflexivity.
Qed.

End Tables.

(** ** Text: splitting, joining and the names of the outputs *)

Section Text.

Lemma append_assoc (a b c : string) : (a ++ b) ++ c = a ++ (b ++ c).
Proof.
  induction a as [|x a IH]; simpl; [reflexivity | now rewrite IH].
Qed.

Lemma length_append (a b : string) :
  String.length (a ++ b) = (String.length a + String.length b)%nat.
Proof.
  induction a as [|x a IH]; simpl; [reflexivity | now rewrite IH].
Qed.

Lemma has_append (c : ascii) (a b : string) :
  has c (a ++ b) = has c a || has c b.
Proof.
  induction a as [|x a IH]; simpl; [reflexivity|].
  now rewrite IH, orb_assoc.
Qed.

Lemma has_dot_has (s : string) : has_dot s = has dot s.
Proof.
  induction s as [|x s IH]; simpl; [reflexivity | now rewrite IH].
Qed.

Lemma split_pieces_free (sep : ascii) (s : string) :
  Forall (fun piece => has sep piece = false) (Py.split sep s).
Proof.
  induction s as [|x s IH]; simpl.
  - repeat constructor.
  - destruct (Ascii.eqb x sep) eqn:Hx.
    + constructor; [reflexivity | exact IH].
    + destruct (Py.split sep s) as [|piece rest]; [repeat constructor; simpl; now rewrite Hx|].
      inversion IH; subst. constructor; [simpl; now rewrite Hx | assumption].
Qed.

Lemma join_push (sep : string) (x : ascii) (piece : string) (rest : list string) :
  Py.join sep (String x piece :: rest) = String x (Py.join sep (piece :: rest)).
Proof.
  destruct rest; reflexivity.
Qed.

Lemma join_cons (sep p q : string) (rest : list string) :
  Py.join sep (p :: q :: rest) = p ++ sep ++ Py.join sep (q :: rest).
Proof. reflexivity. Qed.

Lemma join_split (sep : ascii) (s : string) :
  Py.join (String sep EmptyString) (Py.split sep s) = s.
Proof.
  induction s as [|x s IH]; [reflexivity|]. simpl.
  pose proof (split_not_nil sep s) as Hne.
  destruct (Ascii.eqb x sep) eqn:Hx.
  - apply Ascii.eqb_eq in Hx; subst x.
    destruct (Py.split sep s) as [|piece rest]; [contradiction|].
    rewrite join_cons, IH. reflexivity.
  - destruct (Py.split sep s) as [|piece rest]; [contradiction|].
    now rewrite join_push, IH.
Qed.

Lemma split_free (sep : ascii) (s : string) :
  has sep s = false -> Py.split sep s = [s].
Proof.
  induction s as [|x s IH]; simpl; [reflexivity|].
  intros H. apply orb_false_iff in H. destruct H as [Hx Hs].
  rewrite Hx, (IH Hs). reflexivity.
Qed.

Lemma split_append (sep : ascii) (a b : string) :
  has sep a = false ->
  Py.split sep (a ++ String sep b) = a :: Py.split sep b.
Proof.
  induction a as [|x a IH]; simpl; intros H.
  - now rewrite Ascii.eqb_refl.
  - apply orb_false_iff in H. destruct H as [Hx Ha].
    rewrite Hx, (IH Ha). reflexivity.
Qed.

Lemma split_join (sep : ascii) (pieces : list string) :
  pieces <> [] ->
  Forall (fun piece => has sep piece = false) pieces ->
  Py.split sep (Py.join (String sep EmptyString) pieces) = pieces.
Proof.
  intros Hne Hall. induction Hall as [|piece rest Hp Hall IH]; [now elim Hne|].
  destruct rest as [|piece' rest].
  - simpl. now apply split_free.
  - rewrite join_cons. change (String sep EmptyString ++ ?t) with (String sep t).
    rewrite (split_append sep piece _ Hp). f_equal. apply IH. discriminate.
Qed.

Lemma first_piece_append (a b : string) :
  has_dot a = false ->
  Py.item (Py.split dot (a ++ b)) 0 = a ++ Py.item (Py.split dot b) 0.
Proof.
  unfold Py.item. induction a as [|x a IH]; simpl; intros H; [reflexivity|].
  apply orb_false_iff in H. destruct H as [Hx Ha]. rewrite Hx.
  pose proof (split_not_nil dot (a ++ b)) as Hne.
  specialize (IH Ha).
  destruct (Py.split dot (a ++ b)) as [|piece rest]; [contradiction|].
  simpl in *. now rewrite IH.
Qed.

Lemma first_piece_free (name : string) :
  has_dot (Py.item (Py.split dot name) 0) = false.
Proof.
  apply split_head_before_first_dot.
Qed.

Lemma first_piece_of_output (filename1 filename2 tail : string) :
  has_dot tail = false ->
  Py.item (Py.split dot
    (Py.item (basename1 filename1) 0 ++ "_" ++ Py.item (basename2 filename2) 0
       ++ tail ++ ".csv")) 0
  = Py.item (basename1 filename1) 0 ++ "_" ++ Py.item (basename2 filename2) 0 ++ tail.
Proof.
  intros Htail. unfold basename1, basename2.
  set (b1 := Py.item (Py.split dot filename1) 0).
  set (b2 := Py.item (Py.split dot filename2) 0).
  replace (b1 ++ "_" ++ b2 ++ tail ++ ".csv")
    with ((b1 ++ "_" ++ b2 ++ tail) ++ ".csv")
    by (now rewrite !append_assoc).
  rewrite first_piece_append.
  - change (Py.item (Py.split dot ".csv") 0) with EmptyString.
    clear. induction (b1 ++ "_" ++ b2 ++ tail) as [|x s IH]; simpl; [reflexivity | now rewrite IH].
  - rewrite !has_dot_has, !has_append, <- !has_dot_has.
    unfold b1, b2. rewrite !first_piece_free, Htail. reflexivity.
Qed.

Lemma output_not_input (filename1 filename2 tail name : string) :
  has_dot tail = false ->
  (0 < String.length tail)%nat ->
  name = filename1 \/ name = filename2 ->
  Py.item (basename1 filename1) 0 ++ "_" ++ Py.item (basename2 filename2) 0
    ++ tail ++ ".csv" <> name.
Proof.
  intros Htail Hlen Hname Heq.
  apply (f_equal (fun n => String.length (Py.item (Py.split dot n) 0))) in Heq.
  rewrite (first_piece_of_output filename1 filename2 tail Htail) in Heq.
  rewrite !length_append in Heq. unfold basename1, basename2 in Heq. simpl in Heq.
  destruct Hname as [-> | ->]; lia.
Qed.

End Text.

(** X3: as texts, the names of the two output files differ from each other
    and from the names of both input files, whatever these are.  (Two
    different names that reach one file by different paths are not told
    apart.) *)
Theorem output_names_fresh (filename1 filename2 : string) :
  filename3 filename1 filename2 <> filename1 /\
  filename3 filename1 filename2 <> filename2 /\
  filename4 filename1 filename2 <> filename1 /\
  filename4 filename1 filename2 <> filename2 /\
  filename3 filename1 filename2 <> filename4 filename1 filename2.
Proof.
  repeat split.
  - apply (output_not_input filename1 filename2 "_output_with_coordinates");
      [reflexivity | simpl; lia | now left].
  - apply (output_not_input filename1 filename2 "_output_with_coordinates");
      [reflexivity | simpl; lia | now right].
  - apply (output_not_input filename1 filename2 "_output_single_column");
      [reflexivity | simpl; lia | now left].
  - apply (output_not_input filename1 filename2 "_output_single_column");
      [reflexivity | simpl; lia | now right].
  - intros Heq. apply (f_equal String.length) in Heq.
    unfold filename3, filename4 in Heq. rewrite !length_append in Heq.
    simpl in Heq. lia.
Qed.

(** X4: [split] and [join] undo each other.  Joining the pieces of a text
    with the separator gives the text back, and no piece holds the
    separator; splitting the join of pieces that do not hold the separator
    gives these pieces back. *)
Theorem split_join_round_trip (sep : ascii) :
  (forall s, Py.join (String sep EmptyString) (Py.split sep s) = s /\
             Forall (fun piece => has sep piece = false) (Py.split sep s)) /\
  (forall pieces, pieces <> [] ->
                  Forall (fun piece => has sep piece = false) pieces ->
                  Py.split sep (Py.join (String sep EmptyString) pieces) = pieces).
Proof.
  split.
  - intros s. split; [apply join_split | apply split_pieces_free].
  - apply split_join.
Qed.

(** ** Files that are missing *)

(** X5: a name that is not on disk ends the run with [IOError] and status 1
    and nothing written.  The files are opened in order and only as far as
    needed: with the first file missing none is opened; when the first file
    does not load, or the second is missing, the first is the only one
    opened. *)
Theorem missing_file_raises (argv : list string) (w : world) :
  (3 <= List.length argv)%nat ->
  (disk w (Py.item argv 1) = None ->
     fst (main argv w) = Raise IOError /\
     status (fst (main argv w)) = 1%Z /\
     opened (snd (main argv w)) = opened w /\
     written (snd (main argv w)) = written w) /\
  (forall src s,
     disk w (Py.item argv 1) = Some src -> load_source src = Ok s ->
     disk w (Py.item argv 2) = None ->
     fst (main argv w) = Raise IOError /\
     status (fst (main argv w)) = 1%Z /\
     opened (snd (main argv w)) = (opened w ++ [Py.item argv 1])%list /\
     written (snd (main argv w)) = written w) /\
  (forall src e,
     disk w (Py.item argv 1) = Some src -> load_source src = Raise e ->
     fst (main argv w) = Raise e /\
     opened (snd (main argv w)) = (opened w ++ [Py.item argv 1])%list /\
     written (snd (main argv w)) = written w).
Proof.
  intros Hargv. split; [|split].
  - intros Hd. unfold main.
    rewrite (proj2 (Nat.ltb_ge _ _) Hargv).
    unfold bind, print, Numpy.genfromtxt; simpl.
    rewrite Hd. repeat split.
  - intros src s Hd Hl Hq. unfold main.
    rewrite (proj2 (Nat.ltb_ge _ _) Hargv).
    unfold bind, print, Numpy.genfromtxt, lift; simpl.
    rewrite Hd.
    unfold load_source, rbind in Hl.
    destruct (Numpy.parse src 1) as [data|e1]; [|discriminate].
    destruct (Numpy.column data 1) as [x|e1]; [|discriminate].
    destruct (Numpy.column data 2) as [y|e1]; [|discriminate].
    destruct (Numpy.column data 0) as [t|e1]; [|discriminate].
    simpl. rewrite Hq. repeat split.
  - intros src e Hd Hl. unfold main.
    rewrite (proj2 (Nat.ltb_ge _ _) Hargv).
    unfold bind, print, Numpy.genfromtxt, lift; simpl.
    rewrite Hd.
    unfold load_source, rbind in Hl.
    destruct (Numpy.parse src 1) as [data|e1]; [|inversion Hl; repeat split].
    destruct (Numpy.column data 1) as [x|e1]; [|inversion Hl; repeat split].
    destruct (Numpy.column data 2) as [y|e1]; [|inversion Hl; repeat split].
    destruct (Numpy.column data 0) as [t|e1]; [discriminate|inversion Hl; repeat split].
Qed.

Lemma missing_file_raises_witness :
  fst (main command (fresh [("grid.csv", two_queries)])) = Raise IOError /\
  status (fst (main command (fresh [("grid.csv", two_queries)]))) = 1%Z /\
  opened (snd (main command (fresh [("grid.csv", two_queries)]))) = [] /\
  written (snd (main command (fresh [("grid.csv", two_queries)]))) = [].
Proof.
  refine (proj1 (missing_file_raises command (fresh [("grid.csv", two_queries)]) _) _).
  - simpl; lia.
  - reflexivity.
Defined.

(** ** Tables with too few columns *)

Section Narrow.

Lemma data_rows_not_blank (lines : file) (k : nat) (r : line) :
  In r (Numpy.data_rows lines k) -> (1 <= List.length r)%nat.
Proof.
  unfold Numpy.data_rows. intros H. apply filter_In in H. destruct H as [_ H].
  destruct r; [discriminate | simpl; lia].
Qed.

(** A table of one column is squeezed to one dimension. *)
Lemma parse_one_column (lines : file) (k : nat) :
  (k <= List.length lines)%nat ->
  Forall (fun r => List.length r = 1%nat) (Numpy.data_rows lines k) ->
  exists a, Numpy.parse lines k = Ok a /\ forall j, Numpy.column a j = Raise IndexError.
Proof.
  intros Hk Hall.
  destruct (Nat.lt_ge_cases (List.length (Numpy.data_rows lines k)) 2) as [Hlt|Hge].
  - now apply parse_few_rows.
  - unfold Numpy.parse. rewrite (proj2 (Nat.ltb_ge _ _) Hk). cbv zeta.
    set (rows := Numpy.data_rows lines k) in *.
    destruct rows as [|r1 [|r2 rows]]; simpl in Hge; try lia.
    assert (H1 : List.length r1 = 1%nat) by (now inversion Hall).
    assert (Hcheck : forallb (fun r => (List.length r =? List.length (hd [] (r1 :: r2 :: rows)))%nat)
                       (r1 :: r2 :: rows) = true).
    { apply forallb_forall. intros r Hr. apply Nat.eqb_eq. simpl hd.
      rewrite Forall_forall in Hall. rewrite H1. now apply Hall. }
    rewrite Hcheck. eexists; split; [reflexivity|]. intros j.
    assert (Hone : forallb (fun r => (List.length r =? 1)%nat)
                     (map (map Numpy.loose_call) (r1 :: r2 :: rows)) = true).
    { apply forallb_forall. intros r Hr. apply in_map_iff in Hr.
      destruct Hr as [r0 [<- Hr0]]. rewrite length_map. apply Nat.eqb_eq.
      rewrite Forall_forall in Hall. now apply Hall. }
    unfold Numpy.squeeze. cbn [map] in Hone |- *. rewrite Hone. reflexivity.
Qed.

Lemma column_out_of_bounds (lines : file) (k c j : nat) :
  (2 <= List.length (Numpy.data_rows lines k))%nat ->
  Forall (fun r => List.length r = c) (Numpy.data_rows lines k) ->
  (c <= j)%nat ->
  Numpy.column (Numpy.Array2 (loaded lines k)) j = Raise IndexError.
Proof.
  intros Hn Hall Hj. unfold Numpy.column, loaded.
  destruct (Numpy.data_rows lines k) as [|r1 rows]; simpl in Hn; [lia|].
  cbn [map hd]. rewrite length_map.
  assert (H1 : List.length r1 = c) by (now inversion Hall).
  rewrite H1. now rewrite (proj2 (Nat.ltb_ge _ _) Hj).
Qed.

Lemma load_source_narrow (src : file) (c : nat) :
  (1 <= List.length src)%nat ->
  Forall (fun r => List.length r = c) (Numpy.data_rows src 1) ->
  (c < 3)%nat ->
  load_source src = Raise IndexError.
Proof.
  intros Hk Hall Hc.
  destruct (Nat.lt_ge_cases (List.length (Numpy.data_rows src 1)) 2) as [Hlt|Hge].
  { rewrite (load_source_few_rows src Hlt).
    now rewrite (proj2 (Nat.ltb_ge _ _) Hk). }
  assert (Hpos : (1 <= c)%nat).
  { destruct (Numpy.data_rows src 1) as [|r rows] eqn:Hrows; simpl in Hge; [lia|].
    inversion Hall as [|? ? Hr _]; subst.
    apply (data_rows_not_blank src 1 r). rewrite Hrows. now left. }
  unfold load_source.
  destruct (Nat.eq_dec c 1) as [->|Hne].
  - destruct (parse_one_column src 1 Hk Hall) as [a [-> Hcol]].
    simpl. now rewrite Hcol.
  - assert (c = 2%nat) by lia. subst c.
    rewrite (parse_table src 1 2) by (assumption || lia). simpl rbind.
    rewrite (column_table src 1 2 1) by (assumption || lia). simpl rbind.
    rewrite (column_out_of_bounds src 1 2 2) by (assumption || lia). reflexivity.
Qed.

Lemma load_query_narrow (qry : file) (c : nat) :
  Forall (fun r => List.length r = c) (Numpy.data_rows qry 0) ->
  (c < 3)%nat ->
  load_query qry = Raise IndexError.
Proof.
  intros Hall Hc.
  destruct (Nat.lt_ge_cases (List.length (Numpy.data_rows qry 0)) 2) as [Hlt|Hge].
  { apply (load_query_few_rows qry Hlt). }
  assert (Hpos : (1 <= c)%nat).
  { destruct (Numpy.data_rows qry 0) as [|r rows] eqn:Hrows; simpl in Hge; [lia|].
    inversion Hall as [|? ? Hr _]; subst.
    apply (data_rows_not_blank qry 0 r). rewrite Hrows. now left. }
  unfold load_query.
  destruct (Nat.eq_dec c 1) as [->|Hne].
  - destruct (parse_one_column qry 0 (Nat.le_0_l _) Hall) as [a [-> Hcol]].
    simpl. now rewrite Hcol.
  - assert (c = 2%nat) by lia. subst c.
    rewrite (parse_table qry 0 2) by (assumption || lia). simpl rbind.
    rewrite (column_table qry 0 2 0), (column_table qry 0 2 1) by (assumption || lia).
    simpl rbind.
    rewrite (column_out_of_bounds qry 0 2 2) by (assumption || lia). reflexivity.
Qed.

End Narrow.

(** X6: a file all of whose data rows have fewer than three fields ends the
    run with [IndexError], status 1 and nothing written, however many rows it
    has: the first file (after its header line) on [data[:,1]] or
    [data[:,2]], the second, once the first has loaded, on [grid[:,0]] or
    [grid[:,2]]. *)
Theorem too_few_columns (argv : list string) (w : world) (c : nat) :
  (3 <= List.length argv)%nat ->
  (c < 3)%nat ->
  (forall src,
     disk w (Py.item argv 1) = Some src -> (1 <= List.length src)%nat ->
     Forall (fun r => List.length r = c) (Numpy.data_rows src 1) ->
     fst (main argv w) = Raise IndexError /\
     status (fst (main argv w)) = 1%Z /\
     written (snd (main argv w)) = written w) /\
  (forall src s qry,
     disk w (Py.item argv 1) = Some src -> load_source src = Ok s ->
     disk w (Py.item argv 2) = Some qry ->
     Forall (fun r => List.length r = c) (Numpy.data_rows qry 0) ->
     fst (main argv w) = Raise IndexError /\
     status (fst (main argv w)) = 1%Z /\
     written (snd (main argv w)) = written w).
Proof.
  intros Hargv Hc. split.
  - intros src Hd Hk Hall.
    destruct (main_source_raise argv w Hargv src IndexError Hd
                (load_source_narrow src c Hk Hall Hc)) as [H1 H2].
    rewrite H1. repeat split. exact H2.
  - intros src s qry Hd Hl Hq Hall.
    destruct (main_query_raise argv w Hargv src s qry IndexError Hd Hl Hq
                (load_query_narrow qry c Hall Hc)) as [H1 H2].
    rewrite H1. repeat split. exact H2.
Qed.

Lemma too_few_columns_witness :
  fst (main command (fresh [("temp.csv", two_sources); ("grid.csv", flat_queries)]))
    = Raise IndexError /\
  status (fst (main command (fresh [("temp.csv", two_sources); ("grid.csv", flat_queries)])))
    = 1%Z /\
  written (snd (main command (fresh [("temp.csv", two_sources); ("grid.csv", flat_queries)])))
    = [].
Proof.
  eapply (proj2 (too_few_columns command
            (fresh [("temp.csv", two_sources); ("grid.csv", flat_queries)]) 2 _ _)
            two_sources _ flat_queries).
  - reflexivity.
  - reflexivity.
  - reflexivity.
  - repeat constructor.
  Unshelve.
  + simpl; lia.
  + lia.
Defined.

(** ** Tables of any width *)

Section Wide.

Lemma transpose_three (table : list (list float64)) :
  Numpy.transpose [col 0 table; col 1 table; col 2 table]
  = map (fun r => [nth 0 r NaN; nth 1 r NaN; nth 2 r NaN]) table.
Proof.
  rewrite !transpose_cons, transpose_one. unfold col.
  induction table as [|r table IH]; [reflexivity|].
  cbn [map combine fst snd]. now rewrite IH.
Qed.

Lemma combine_map_r {A B C} (f : B -> C) (l : list A) (l' : list B) :
  combine l (map f l') = map (fun ab => (fst ab, f (snd ab))) (combine l l').
Proof.
  revert l'. induction l as [|a l IH]; intros [|b l']; simpl; try reflexivity.
  now rewrite IH.
Qed.

Lemma row_of_three (r : list float64) :
  List.length r = 3%nat -> [nth 0 r NaN; nth 1 r NaN; nth 2 r NaN] = r.
Proof.
  destruct r as [|a [|b [|c [|d r]]]]; try discriminate. reflexivity.
Qed.

(** The run on two tables of two rows or more and three fields or more whose
    coordinates are numbers. *)
Lemma run_on_tables (argv : list string) (w : world) (src qry : file) (c1 c2 : nat) :
  (3 <= List.length argv)%nat ->
  disk w (Py.item argv 1) = Some src ->
  disk w (Py.item argv 2) = Some qry ->
  (2 <= List.length (Numpy.data_rows src 1))%nat ->
  Forall (fun r => List.length r = c1) (Numpy.data_rows src 1) ->
  (3 <= c1)%nat ->
  Forall source_row (Numpy.data_rows src 1) ->
  (2 <= List.length (Numpy.data_rows qry 0))%nat ->
  Forall (fun r => List.length r = c2) (Numpy.data_rows qry 0) ->
  (3 <= c2)%nat ->
  Forall query_row (Numpy.data_rows qry 0) ->
  exists temp2,
    List.length temp2 = List.length (loaded qry 0) /\
    Forall (fun v => In v (col 0 (loaded src 1))) temp2 /\
    fst (main argv w) = Raise SystemExit /\
    written (snd (main argv w)) =
      (filename4 (Py.item argv 1) (Py.item argv 2), map Py.str temp2)
      :: (filename3 (Py.item argv 1) (Py.item argv 2),
          "T,x,y,z"
            :: map (fun vq => Py.join ","
                      (map Py.str [fst vq; nth 0 (snd vq) NaN; nth 1 (snd vq) NaN;
                                   nth 2 (snd vq) NaN]))
                 (combine temp2 (loaded qry 0)))
      :: written w.
Proof.
  intros Hargv Hd Hq Hns Hs Hc1 Hsrc Hnq Hg Hc2 Hqry.
  assert (Hls : load_source src
                = Ok (col 1 (loaded src 1), col 2 (loaded src 1), col 0 (loaded src 1))).
  { unfold load_source. rewrite (parse_table src 1 c1) by (assumption || lia).
    simpl rbind. rewrite !(column_table src 1 c1) by (assumption || lia). reflexivity. }
  assert (Hlq : load_query qry
                = Ok (col 0 (loaded qry 0), col 1 (loaded qry 0), col 2 (loaded qry 0))).
  { unfold load_query. rewrite (parse_table qry 0 c2) by (assumption || lia).
    simpl rbind. rewrite !(column_table qry 0 c2) by (assumption || lia). reflexivity. }
  destruct (griddata_returns (col 1 (loaded src 1)) (col 2 (loaded src 1))
              (col 0 (loaded src 1)) (col 0 (loaded qry 0)) (col 1 (loaded qry 0)))
    as [temp2 [Hgrid [Hlen Hvals]]].
  { unfold col, loaded. rewrite !length_map. apply Nat.lt_le_incl. exact Hns. }
  { unfold col. now rewrite !length_map. }
  { unfold col. now rewrite !length_map. }
  { unfold col. now rewrite !length_map. }
  { apply col_loaded_coordinates. eapply Forall_impl; [|exact Hsrc]. now intros r [_ [H _]]. }
  { apply col_loaded_coordinates. eapply Forall_impl; [|exact Hsrc]. now intros r [_ [_ H]]. }
  { apply col_loaded_coordinates. eapply Forall_impl; [|exact Hqry]. now intros r [H _]. }
  { apply col_loaded_coordinates. eapply Forall_impl; [|exact Hqry]. now intros r [_ [H _]]. }
  exists temp2. split.
  { rewrite Hlen. unfold col. now rewrite length_map. }
  split; [exact Hvals|].
  pose proof (main_loaded argv w Hargv src _ qry _ Hd Hls Hq Hlq) as Hrun.
  unfold artifacts in Hrun. rewrite Hgrid in Hrun. simpl rbind in Hrun.
  destruct Hrun as [H1 H2]. rewrite H1, H2. split; [reflexivity|].
  rewrite text_single_column, transpose_cons, transpose_three.
  unfold Numpy.text. cbn [String.length Nat.eqb app].
  rewrite combine_map_r, !map_map. reflexivity.
Qed.

End Wide.

(** X1: on a first file of two or more rows of four fields and a second
    file of two or more rows of three fields, with numbers for the
    coordinates and plain fields where a number is written, a run that ends
    with status 0 has written both files row by row in the order of the
    second file: row [i] of the file with coordinates is the value
    resampled for query point [i], then the point's x, y and z; row [i] of
    the single-column file is that value alone.  There are as many values as
    query points, and each is a value of column 0 of the first file. *)
Theorem rows_in_query_order (argv : list string) (w : world) (src qry : file) :
  (3 <= List.length argv)%nat ->
  disk w (Py.item argv 1) = Some src ->
  disk w (Py.item argv 2) = Some qry ->
  (2 <= List.length (Numpy.data_rows src 1))%nat ->
  Forall (fun r => List.length r = 4%nat) (Numpy.data_rows src 1) ->
  Forall source_row (Numpy.data_rows src 1) ->
  (2 <= List.length (Numpy.data_rows qry 0))%nat ->
  Forall (fun r => List.length r = 3%nat) (Numpy.data_rows qry 0) ->
  Forall query_row (Numpy.data_rows qry 0) ->
  status (fst (main argv w)) = 0%Z ->
  exists temp2,
    List.length temp2 = List.length (loaded qry 0) /\
    Forall (fun v => In v (col 0 (loaded src 1))) temp2 /\
    written (snd (main argv w)) =
      (filename4 (Py.item argv 1) (Py.item argv 2), map Py.str temp2)
      :: (filename3 (Py.item argv 1) (Py.item argv 2),
          "T,x,y,z"
            :: map (fun vq => Py.join "," (map Py.str (fst vq :: snd vq)))
                 (combine temp2 (loaded qry 0)))
      :: written w.
Proof.
  intros Hargv Hd Hq Hns Hs Hsrc Hnq Hg Hqry _.
  destruct (run_on_tables argv w src qry 4 3 Hargv Hd Hq Hns Hs (Nat.le_succ_diag_r 3)
              Hsrc Hnq Hg (Nat.le_refl 3) Hqry)
    as [temp2 [Hlen [Hvals [_ Hw]]]].
  exists temp2. split; [exact Hlen|]. split; [exact Hvals|].
  rewrite Hw.
  assert (Hrows :
    map (fun vq => Py.join ","
           (map Py.str [fst vq; nth 0 (snd vq) NaN; nth 1 (snd vq) NaN;
                        nth 2 (snd vq) NaN]))
        (combine temp2 (loaded qry 0))
    = map (fun vq => Py.join "," (map Py.str (fst vq :: snd vq)))
        (combine temp2 (loaded qry 0))).
  { apply map_ext_in. intros [v r] Hin.
    apply in_combine_r in Hin. unfold loaded in Hin. apply in_map_iff in Hin.
    destruct Hin as [r0 [<- Hr0]]. cbn [fst snd].
    rewrite row_of_three; [reflexivity|].
    rewrite length_map. rewrite Forall_forall in Hg. now apply Hg. }
  now rewrite Hrows.
Qed.

Lemma rows_in_query_order_witness :
  exists temp2,
    List.length temp2 = List.length (loaded two_queries 0) /\
    Forall (fun v => In v (col 0 (loaded two_sources 1))) temp2 /\
    written (snd (main command (fresh [("temp.csv", two_sources); ("grid.csv", two_queries)]))) =
      (filename4 "temp.csv" "grid.csv", map Py.str temp2)
      :: (filename3 "temp.csv" "grid.csv",
          "T,x,y,z"
            :: map (fun vq => Py.join "," (map Py.str (fst vq :: snd vq)))
                 (combine temp2 (loaded two_queries 0)))
      :: [].
Proof.
  apply (rows_in_query_order command
           (fresh [("temp.csv", two_sources); ("grid.csv", two_queries)])
           two_sources two_queries);
    try reflexivity; try (simpl; lia); repeat constructor.
Defined.

(** X7: the run reads three fields of each row and no more.  On a first file
    of two or more rows of [c1 >= 3] fields and a second file of two or more
    rows of [c2 >= 3] fields, with numbers for the coordinates and plain
    fields where a number is written, a run that ends with status 0 has
    written, after the header, four numbers per query point in the order of
    the second file: a value of column 0 of the first file and fields 0, 1
    and 2 of the point.  Further fields of either file are not written, and
    a first file without a z column is read as well. *)
Theorem three_fields_read (argv : list string) (w : world) (src qry : file) (c1 c2 : nat) :
  (3 <= List.length argv)%nat ->
  disk w (Py.item argv 1) = Some src ->
  disk w (Py.item argv 2) = Some qry ->
  (2 <= List.length (Numpy.data_rows src 1))%nat ->
  Forall (fun r => List.length r = c1) (Numpy.data_rows src 1) ->
  (3 <= c1)%nat ->
  Forall source_row (Numpy.data_rows src 1) ->
  (2 <= List.length (Numpy.data_rows qry 0))%nat ->
  Forall (fun r => List.length r = c2) (Numpy.data_rows qry 0) ->
  (3 <= c2)%nat ->
  Forall query_row (Numpy.data_rows qry 0) ->
  status (fst (main argv w)) = 0%Z ->
  exists temp2,
    List.length temp2 = List.length (loaded qry 0) /\
    Forall (fun v => In v (col 0 (loaded src 1))) temp2 /\
    written (snd (main argv w)) =
      (filename4 (Py.item argv 1) (Py.item argv 2), map Py.str temp2)
      :: (filename3 (Py.item argv 1) (Py.item argv 2),
          "T,x,y,z"
            :: map (fun vq => Py.join ","
                      (map Py.str [fst vq; nth 0 (snd vq) NaN; nth 1 (snd vq) NaN;
                                   nth 2 (snd vq) NaN]))
                 (combine temp2 (loaded qry 0)))
      :: written w.
Proof.
  intros Hargv Hd Hq Hns Hs Hc1 Hsrc Hnq Hg Hc2 Hqry _.
  destruct (run_on_tables argv w src qry c1 c2 Hargv Hd Hq Hns Hs Hc1 Hsrc Hnq Hg Hc2 Hqry)
    as [temp2 [Hlen [Hvals [_ Hw]]]].
  exists temp2. repeat split; assumption.
Qed.

Lemma three_fields_read_witness :
  exists temp2,
    List.length temp2 = List.length (loaded tagged_queries 0) /\
    Forall (fun v => In v (col 0 (loaded flat_sources 1))) temp2 /\
    written (snd (main command (fresh [("temp.csv", flat_sources); ("grid.csv", tagged_queries)]))) =
      (filename4 "temp.csv" "grid.csv", map Py.str temp2)
      :: (filename3 "temp.csv" "grid.csv",
          "T,x,y,z"
            :: map (fun vq => Py.join ","
                      (map Py.str [fst vq; nth 0 (snd vq) NaN; nth 1 (snd vq) NaN;
                                   nth 2 (snd vq) NaN]))
                 (combine temp2 (loaded tagged_queries 0)))
      :: [].
Proof.
  apply (three_fields_read command
           (fresh [("temp.csv", flat_sources); ("grid.csv", tagged_queries)])
           flat_sources tagged_queries 3 4);
    try reflexivity; try (simpl; lia); repeat constructor.
Defined.

(** ** The text of the numbers written *)

Section NumberText.

Lemma has_uint (d : Decimal.uint) : has comma (NilEmpty.string_of_uint d) = false.
Proof.
  induction d; simpl; try reflexivity; exact IHd.
Qed.

Lemma has_digits (n : N) : has comma (Py.digits n) = false.
Proof.
  unfold Py.digits, NilZero.string_of_uint.
  destruct (N.to_uint n) eqn:Hd; try reflexivity; rewrite <- Hd; apply has_uint.
Qed.

Lemma has_substring (c : ascii) (s : string) :
  has c s = false -> forall n m, has c (substring n m s) = false.
Proof.
  induction s as [|x s IH]; intros H n m.
  - destruct n, m; reflexivity.
  - simpl in H. apply orb_false_iff in H. destruct H as [Hx Hs].
    destruct n as [|n].
    + destruct m as [|m]; [reflexivity|]. simpl. rewrite Hx. now apply IH.
    + simpl. now apply IH.
Qed.

Lemma has_zeros (k : nat) : has comma (Py.zeros k) = false.
Proof.
  induction k as [|k IH]; simpl; [reflexivity | exact IH].
Qed.

Lemma str_no_comma (v : float64) : has comma (Py.str v) = false.
Proof.
  destruct v as [m e|]; [|reflexivity]. unfold Py.str.
  destruct (m =? 0)%Z; [reflexivity|].
  rewrite has_append.
  assert (Hsign : has comma (if (m <? 0)%Z then "-" else EmptyString) = false)
    by (destruct (m <? 0)%Z; reflexivity).
  rewrite Hsign. simpl orb.
  pose proof (has_digits (Z.abs_N m)) as Hds.
  repeat match goal with
  | |- context [if ?b then _ else _] => destruct b
  end;
  repeat first
    [ rewrite has_append
    | rewrite has_zeros
    | rewrite has_digits
    | rewrite (has_substring comma _ Hds)
    | progress (cbn [has append orb]; change (Ascii.eqb ?c comma) with false) ];
  reflexivity.
Qed.

End NumberText.

(** X11: the file with coordinates reads back as the table written.  On two
    tables of two rows or more and three fields or more, with numbers for
    the coordinates and plain fields where a number is written, a run that
    ends with status 0 has written a file with coordinates whose every data
    row splits at the commas into exactly four texts, those of a value of
    column 0 of the first file and of the x, y and z of the query point, in
    the order of the second file; the header splits into T, x, y, z; and no
    line of the single-column file holds a comma. *)
Theorem written_rows_split_back (argv : list string) (w : world) (src qry : file) (c1 c2 : nat) :
  (3 <= List.length argv)%nat ->
  disk w (Py.item argv 1) = Some src ->
  disk w (Py.item argv 2) = Some qry ->
  (2 <= List.length (Numpy.data_rows src 1))%nat ->
  Forall (fun r => List.length r = c1) (Numpy.data_rows src 1) ->
  (3 <= c1)%nat ->
  Forall source_row (Numpy.data_rows src 1) ->
  (2 <= List.length (Numpy.data_rows qry 0))%nat ->
  Forall (fun r => List.length r = c2) (Numpy.data_rows qry 0) ->
  (3 <= c2)%nat ->
  Forall query_row (Numpy.data_rows qry 0) ->
  status (fst (main argv w)) = 0%Z ->
  exists temp2 rows,
    written (snd (main argv w)) =
      (filename4 (Py.item argv 1) (Py.item argv 2), map Py.str temp2)
      :: (filename3 (Py.item argv 1) (Py.item argv 2), "T,x,y,z" :: rows)
      :: written w /\
    map (Py.split comma) rows =
      map (fun vq => map Py.str [fst vq; nth 0 (snd vq) NaN; nth 1 (snd vq) NaN;
                                 nth 2 (snd vq) NaN])
          (combine temp2 (loaded qry 0)) /\
    List.length temp2 = List.length (loaded qry 0) /\
    Forall (fun v => In v (col 0 (loaded src 1))) temp2 /\
    Py.split comma "T,x,y,z" = ["T"; "x"; "y"; "z"] /\
    Forall (fun text => Py.split comma text = [text]) (map Py.str temp2).
Proof.
  intros Hargv Hd Hq Hns Hs Hc1 Hsrc Hnq Hg Hc2 Hqry _.
  destruct (run_on_tables argv w src qry c1 c2 Hargv Hd Hq Hns Hs Hc1 Hsrc Hnq Hg Hc2 Hqry)
    as [temp2 [Hlen [Hvals [_ Hw]]]].
  eexists temp2, _. split; [exact Hw|].
  split; [|split; [exact Hlen|split; [exact Hvals|split; [reflexivity|]]]].
  - rewrite map_map. apply map_ext. intros [v r].
    apply (split_join comma); [discriminate|].
    repeat constructor; apply str_no_comma.
  - apply Forall_forall. intros text Ht. apply in_map_iff in Ht.
    destruct Ht as [v [<- _]]. apply split_free. apply str_no_comma.
Qed.

Lemma written_rows_split_back_witness :
  exists temp2 rows,
    written (snd (main command (fresh [("temp.csv", two_sources); ("grid.csv", two_queries)]))) =
      (filename4 "temp.csv" "grid.csv", map Py.str temp2)
      :: (filename3 "temp.csv" "grid.csv", "T,x,y,z" :: rows)
      :: [] /\
    map (Py.split comma) rows =
      map (fun vq => map Py.str [fst vq; nth 0 (snd vq) NaN; nth 1 (snd vq) NaN;
                                 nth 2 (snd vq) NaN])
          (combine temp2 (loaded two_queries 0)) /\
    List.length temp2 = List.length (loaded two_queries 0) /\
    Forall (fun v => In v (col 0 (loaded two_sources 1))) temp2 /\
    Py.split comma "T,x,y,z" = ["T"; "x"; "y"; "z"] /\
    Forall (fun text => Py.split comma text = [text]) (map Py.str temp2).
Proof.
  apply (written_rows_split_back command
           (fresh [("temp.csv", two_sources); ("grid.csv", two_queries)])
           two_sources two_queries 4 3);
    try reflexivity; try (simpl; lia); repeat constructor.
Defined.

(** X13: the first line of the first file is dropped unread.  Two runs whose
    first files differ only in their first line, on the same second file
    under another name, end the same way and leave the same output files:
    a data row standing where the header is expected is lost without an
    error. *)
Theorem first_line_unread (argv : list string) (w w' : world) (l l' : line) (rest : file) :
  disk w (Py.item argv 1) = Some (l :: rest) ->
  disk w' (Py.item argv 1) = Some (l' :: rest) ->
  Py.item argv 2 <> Py.item argv 1 ->
  (forall name, name <> Py.item argv 1 -> disk w' name = disk w name) ->
  written w' = written w ->
  fst (main argv w') = fst (main argv w) /\
  written (snd (main argv w')) = written (snd (main argv w)).
Proof.
  intros Hd Hd' Hne Hother Hw.
  destruct (Nat.lt_ge_cases (List.length argv) 3) as [Hlt|Hge].
  - apply Nat.ltb_lt in Hlt. unfold main. rewrite Hlt.
    unfold bind, print, exit, raise. simpl. now split.
  - assert (H : (fst (main argv w'), written (snd (main argv w')))
                = (fst (main argv w), written (snd (main argv w)))).
    { rewrite (main_outcome argv w Hge), (main_outcome argv w' Hge).
      rewrite Hd, Hd', Hw, (Hother _ Hne).
      replace (load_source (l' :: rest)) with (load_source (l :: rest)); [reflexivity|].
      unfold load_source, Numpy.parse, Numpy.data_rows. reflexivity. }
    now inversion H.
Qed.

Lemma first_line_unread_witness :
  fst (main command (fresh [("temp.csv", headless_sources); ("grid.csv", two_queries)]))
  = fst (main command (fresh [("temp.csv", header :: tl headless_sources); ("grid.csv", two_queries)])) /\
  written (snd (main command (fresh [("temp.csv", headless_sources); ("grid.csv", two_queries)])))
  = written (snd (main command
                    (fresh [("temp.csv", header :: tl headless_sources); ("grid.csv", two_queries)]))).
Proof.
  apply (first_line_unread command
           (fresh [("temp.csv", header :: tl headless_sources); ("grid.csv", two_queries)])
           (fresh [("temp.csv", headless_sources); ("grid.csv", two_queries)])
           header [Literal 55 (-1); integer 3; integer 3; integer 0] (tl headless_sources)).
  - reflexivity.
  - reflexivity.
  - discriminate.
  - intros name Hname. unfold fresh. cbn [disk disk_of].
    destruct (String.eqb "temp.csv" name) eqn:Heq; [|reflexivity].
    apply String.eqb_eq in Heq. subst name. now elim Hname.
  - reflexivity.
Defined.
